(** * A shallow embedding of vault-plugin-secrets-proxmox

    The Go backend (package [proxmox]) is modelled as pure functions over an
    explicit backend state: the cached upstream client ([b.client]) and the
    plugin's storage view.  A handler returning a response and an error
    is modelled by an [outcome (option response)]; a Go runtime panic (nil
    dereference, failed type assertion) is the [Panic] outcome.  Remote calls
    to the Proxmox API (the [ProxmoxApi] class) and the failures of storage
    I/O ([s_fault]) are left open, so every theorem holds for any behaviour
    of the remote system and of the storage collaborator. *)

From Stdlib Require Import ZArith String Ascii List Bool Lia.
From Stdlib Require Import Strings.Byte.
From stdpp Require Import base gmap strings list.
Import ListNotations.
Open Scope string_scope.

(* ------------------------------------------------------------------ *)
(** ** Go values, handler outcomes and durations *)

(** The dynamic values stored in [map[string]interface{}] response data and
    in [Secret.InternalData]. *)
Inductive value :=
| VStr (s : string)
| VBool (b : bool)
| VInt (z : Z)
| VOther.

(** [(T, error)] results of Go functions, with a runtime panic as a third
    way to leave a handler. *)
Inductive outcome (A : Type) :=
| Ok (a : A)
| Err (msg : string)
| Panic (msg : string).
Arguments Ok {A} a.
Arguments Err {A} msg.
Arguments Panic {A} msg.

Definition bind_outcome {A B} (m : outcome A) (k : A -> outcome B) : outcome B :=
  match m with
  | Ok a => k a
  | Err e => Err e
  | Panic e => Panic e
  end.

(** Association-list view of a Go [map[string]interface{}]. *)
Fixpoint assoc_get (k : string) (m : list (string * value)) : option value :=
  match m with
  | [] => None
  | (k', v) :: m' => if String.eqb k k' then Some v else assoc_get k m'
  end.

(** [m[k] = v]: overwrite the key if present, append it otherwise. *)
Fixpoint assoc_set (k : string) (v : value) (m : list (string * value))
  : list (string * value) :=
  match m with
  | [] => [(k, v)]
  | (k', v') :: m' =>
      if String.eqb k k' then (k, v) :: m' else (k', v') :: assoc_set k v m'
  end.

(** [time.Duration] is an int64 count of nanoseconds. *)
Definition wrap64 (z : Z) : Z :=
  Z.modulo (z + 2 ^ 63) (2 ^ 64) - 2 ^ 63.

Definition Second : Z := 1000000000.

(** [time.Duration(n) * time.Second], with int64 wrap-around. *)
Definition duration_of_seconds (n : Z) : Z := wrap64 (n * Second).

(** [int(d.Seconds())]: the whole number of seconds of [d], truncated toward
    zero (exact for the durations the code stores, which are whole seconds). *)
Definition duration_int_seconds (d : Z) : Z := Z.quot d Second.

(* ------------------------------------------------------------------ *)
(** ** Responses (package [logical]) *)

Record lease_secret := {
  sec_ttl : Z;
  sec_max_ttl : Z;
  sec_renewable : bool;
  sec_internal : list (string * value)
}.

Record response := {
  resp_data : list (string * value);
  resp_secret : option lease_secret
}.

(** [logical.ErrorResponse(msg)]: a response whose data carries ["error"]. *)
Definition ErrorResponse (msg : string) : response :=
  {| resp_data := [("error", VStr msg)]; resp_secret := None |}.

Definition data_response (d : list (string * value)) : response :=
  {| resp_data := d; resp_secret := None |}.

(* ------------------------------------------------------------------ *)
(** ** The Connection Profile ([proxmoxConfig], path_config.go) *)

Record proxmoxConfig := {
  User : string;
  Realm : string;
  ApiTokenID : string;
  ApiTokenSecret : string;
  ApiURL : string;
  SkipCertValidation : bool;
  HTTPHeaders : string;
  ProxyServer : string;
  TaskTimeout : Z
}.

(** [new(proxmoxConfig)]: every field at its Go zero value. *)
Definition new_proxmoxConfig : proxmoxConfig :=
  {| User := ""; Realm := ""; ApiTokenID := ""; ApiTokenSecret := "";
     ApiURL := ""; SkipCertValidation := false; HTTPHeaders := "";
     ProxyServer := ""; TaskTimeout := 0 |}.

(** ** Roles ([proxmoxRoleEntry], role path) *)

Record proxmoxRoleEntry := {
  Name : string;
  RUser : string;   (* field User *)
  RRealm : string;  (* field Realm *)
  TTL : Z;
  MaxTTL : Z
}.

(* ------------------------------------------------------------------ *)
(** ** Storage ([logical.Storage])

    The code keeps the Connection Profile under the key ["config"] and each
    role under ["role/" ++ name]; both key spaces are kept apart here, each
    holding the JSON-decoded record.  [s_fault op key] is the error the
    storage collaborator returns for operation [op] on [key], if any. *)

Inductive storage_op := OpGet | OpPut | OpDelete | OpList.

Record storage := {
  s_config : option proxmoxConfig;
  s_roles : gmap string proxmoxRoleEntry;
  s_fault : storage_op -> string -> option string
}.

Definition configStoragePath : string := "config".

Definition set_s_config (s : storage) (c : option proxmoxConfig) : storage :=
  {| s_config := c; s_roles := s_roles s; s_fault := s_fault s |}.

Definition set_s_roles (s : storage) (r : gmap string proxmoxRoleEntry) : storage :=
  {| s_config := s_config s; s_roles := r; s_fault := s_fault s |}.

(** [getConfig]: [(nil, nil)] when nothing is stored. *)
Definition getConfig (s : storage) : outcome (option proxmoxConfig) :=
  match s_fault s OpGet configStoragePath with
  | Some e => Err e
  | None => Ok (s_config s)
  end.

(* ------------------------------------------------------------------ *)
(** ** Requests *)

Inductive operation := CreateOperation | UpdateOperation | ReadOperation | DeleteOperation.

Definition is_create (op : operation) : bool :=
  match op with CreateOperation => true | _ => false end.

(** The fields of a write on [config], as [data.GetOk] sees them: [None]
    when the field was not supplied by the request. *)
Record configFields := {
  f_user : option string;
  f_realm : option string;
  f_token_id : option string;
  f_token_secret : option string;
  f_proxmox_url : option string;
  f_insecure_skip_tls_verify : option bool;
  f_http_headers : option string;
  f_proxy_server : option string;
  f_timeout : option Z
}.

(** The fields of a write on [role/{name}]. *)
Record roleFields := {
  rf_name : option string;
  rf_user : option string;
  rf_realm : option string;
  rf_ttl : option Z;
  rf_max_ttl : option Z
}.

(* ------------------------------------------------------------------ *)
(** ** The Proxmox API client (part_001: [newClient]) *)

(** [pxapi.ApiToken] *)
Record ApiToken := {
  TokenId : string;
  Comment : string;
  Expire : Z;
  Privsep : bool
}.

(** A [proxmoxClient]: what [pxapi.NewClient] and [SetAPIToken] were given.
    [pc_tls] is the [*tls.Config]: [None] for nil, [Some b] for a config
    with [InsecureSkipVerify = b]. *)
Record proxmoxClient := {
  pc_api_url : string;
  pc_http_headers : string;
  pc_tls : option bool;
  pc_proxy_server : string;
  pc_timeout : Z;
  pc_token : string;
  pc_token_secret : string
}.

(** The backend: [b.client] and the storage the request carries. *)
Record backend := {
  b_client : option proxmoxClient;
  b_storage : storage
}.

Definition set_b_client (b : backend) (c : option proxmoxClient) : backend :=
  {| b_client := c; b_storage := b_storage b |}.

Definition set_b_storage (b : backend) (s : storage) : backend :=
  {| b_client := b_client b; b_storage := s |}.

(** The remote system's client keeps the token [user@realm!token]. *)
Definition full_token (user realm tokenID : string) : string :=
  user ++ "@" ++ realm ++ "!" ++ tokenID.

(** A remote call made by a handler, in the order made. *)
Inductive px_call :=
| PxGetUser (user realm : string)
| PxCreateApiToken (user realm : string) (t : ApiToken)
| PxDeleteApiToken (user realm : string) (t : ApiToken).

(** The calls the code makes on the Proxmox API library ([pxapi]); their
    results are those of the remote system, left open. *)
Class ProxmoxApi := {
  (** [pxapi.NewClient(url, nil, headers, tls, proxy, timeout)]: the error it
      returns, if any. *)
  px_new_client : string -> string -> option bool -> string -> Z -> option string;
  (** [pxapi.NewConfigUserFromApi]: the error it returns, if any. *)
  px_user_from_api : proxmoxClient -> string -> string -> option string;
  (** [u.CreateApiToken]: the secret of the new token, or an error. *)
  px_create_api_token : proxmoxClient -> string -> string -> ApiToken -> outcome string;
  (** [u.DeleteApiToken]: the error it returns, if any. *)
  px_delete_api_token : proxmoxClient -> string -> string -> ApiToken -> option string
}.

Section Backend.
Context `{ProxmoxApi}.

(** [newClient(config)] *)
Definition newClient (config : option proxmoxConfig) : outcome proxmoxClient :=
  match config with
  | None => Err "client configuration was nil"
  | Some config =>
      if String.eqb (ApiTokenID config) "" then Err "client api token was not defined"
      else
        let fullToken := full_token (User config) (Realm config) (ApiTokenID config) in
        let tlsConfig := if negb (SkipCertValidation config) then None else Some true in
        let timeout := duration_int_seconds (TaskTimeout config) in
        match px_new_client (ApiURL config) (HTTPHeaders config) tlsConfig
                (ProxyServer config) timeout with
        | Some e => Err e
        | None =>
            Ok {| pc_api_url := ApiURL config; pc_http_headers := HTTPHeaders config;
                  pc_tls := tlsConfig; pc_proxy_server := ProxyServer config;
                  pc_timeout := timeout; pc_token := fullToken;
                  pc_token_secret := ApiTokenSecret config |}
        end
  end.

(** [b.reset()]: [b.client = nil] (under the write lock). *)
Definition reset (b : backend) : backend := set_b_client b None.

(** [b.invalidate(ctx, key)] *)
Definition invalidate (b : backend) (key : string) : backend :=
  if String.eqb key "config" then reset b else b.

(** [b.getClient(ctx, s)] run by a single caller (the locking is the
    subject of [GetClientConcurrency] below).  The assignment
    [b.client, err = newClient(config)] stores nil when the build fails. *)
Definition getClient (b : backend) : outcome proxmoxClient * backend :=
  match b_client b with
  | Some c => (Ok c, b)
  | None =>
      match getConfig (b_storage b) with
      | Err e => (Err e, b)
      | Panic e => (Panic e, b)
      | Ok config =>
          let config := match config with None => new_proxmoxConfig | Some c => c end in
          match newClient (Some config) with
          | Ok c => (Ok c, set_b_client b (Some c))
          | Err e => (Err e, set_b_client b None)
          | Panic e => (Panic e, set_b_client b None)
          end
      end
  end.

(* ------------------------------------------------------------------ *)
(** ** Config handlers (path_config.go) *)

(** [pathConfigRead]: [c] is nil when nothing is stored, and reading
    [c.User] then dereferences a nil pointer. *)
Definition pathConfigRead (b : backend) : outcome (option response) :=
  match getConfig (b_storage b) with
  | Err e => Err e
  | Panic e => Panic e
  | Ok None => Panic "runtime error: invalid memory address or nil pointer dereference"
  | Ok (Some c) =>
      Ok (Some (data_response
        [("user", VStr (User c));
         ("realm", VStr (Realm c));
         ("token_id", VStr (ApiTokenID c));
         ("proxmox_url", VStr (ApiURL c));
         ("insecure_skip_tls_verify", VBool (SkipCertValidation c));
         ("http_headers", VStr (HTTPHeaders c));
         ("proxy_server", VStr (ProxyServer c));
         ("timeout", VInt (duration_int_seconds (TaskTimeout c)))]))
  end.

(** One required field of [pathConfigWrite]: taken when supplied, an error
    on create when missing, kept on update. *)
Definition required_field (create : bool) (v : option string) (old : string)
    (missing : string) : outcome string :=
  match v with
  | Some x => Ok x
  | None => if create then Err missing else Ok old
  end.

(** One optional field: taken when supplied, its declared default on
    create ([data.GetDefaultOrZero]), kept on update. *)
Definition optional_field {A} (create : bool) (v : option A) (old dflt : A) : A :=
  match v with
  | Some x => x
  | None => if create then dflt else old
  end.

(** The field assignments of [pathConfigWrite], in the order of the code. *)
Definition config_merge (create : bool) (data : configFields) (config : proxmoxConfig)
    : outcome proxmoxConfig :=
  bind_outcome (required_field create (f_user data) (User config)
                  "missing user in configuration") (fun user =>
  bind_outcome (required_field create (f_realm data) (Realm config)
                  "missing realm in configuration") (fun realm =>
  bind_outcome (required_field create (f_token_id data) (ApiTokenID config)
                  "missing token_id in configuration") (fun tokenID =>
  bind_outcome (required_field create (f_token_secret data) (ApiTokenSecret config)
                  "missing token_secret in configuration") (fun tokenSecret =>
  (* ok = ok && len(apiURL.(string)) > 0 *)
  let apiURL := match f_proxmox_url data with
                | Some u => if String.eqb u "" then None else Some u
                | None => None end in
  bind_outcome (required_field create apiURL (ApiURL config)
                  "missing proxmox_url in configuration") (fun url =>
  Ok {| User := user; Realm := realm; ApiTokenID := tokenID;
        ApiTokenSecret := tokenSecret; ApiURL := url;
        SkipCertValidation := optional_field create (f_insecure_skip_tls_verify data)
                                (SkipCertValidation config) false;
        HTTPHeaders := optional_field create (f_http_headers data) (HTTPHeaders config) "";
        ProxyServer := optional_field create (f_proxy_server data) (ProxyServer config) "";
        TaskTimeout := optional_field create
                         (option_map duration_of_seconds (f_timeout data))
                         (TaskTimeout config) (duration_of_seconds 120) |}))))).

(** [pathConfigWrite] *)
Definition pathConfigWrite (b : backend) (op : operation) (data : configFields)
    : outcome (option response) * backend :=
  match getConfig (b_storage b) with
  | Err e => (Err e, b)
  | Panic e => (Panic e, b)
  | Ok config =>
      let createOperation := is_create op in
      match config, createOperation with
      | None, false => (Err "config not found during update operation", b)
      | _, _ =>
          let config := match config with None => new_proxmoxConfig | Some c => c end in
          match config_merge createOperation data config with
          | Err e => (Err e, b)
          | Panic e => (Panic e, b)
          | Ok config =>
              match s_fault (b_storage b) OpPut configStoragePath with
              | Some e => (Err e, b)
              | None =>
                  (Ok None, reset (set_b_storage b (set_s_config (b_storage b) (Some config))))
              end
          end
      end
  end.

(** [pathConfigDelete] *)
Definition pathConfigDelete (b : backend) : outcome (option response) * backend :=
  match s_fault (b_storage b) OpDelete configStoragePath with
  | Some e => (Err e, b)
  | None => (Ok None, reset (set_b_storage b (set_s_config (b_storage b) None)))
  end.


(* ------------------------------------------------------------------ *)
(** ** Role handlers (part_002) *)

Definition role_key (name : string) : string := "role/" ++ name.

(** [b.getRole(ctx, s, name)]: [(nil, nil)] for an unknown role. *)
Definition getRole (s : storage) (name : string) : outcome (option proxmoxRoleEntry) :=
  if String.eqb name "" then Err "missing role name"
  else match s_fault s OpGet (role_key name) with
       | Some e => Err e
       | None => Ok (s_roles s !! role_key name)
       end.

(** [setRole(ctx, s, name, roleEntry)] *)
Definition setRole (s : storage) (name : string) (roleEntry : proxmoxRoleEntry)
    : outcome storage :=
  match s_fault s OpPut (role_key name) with
  | Some e => Err e
  | None => Ok (set_s_roles s (<[role_key name := roleEntry]> (s_roles s)))
  end.

(** [ok = ok && len(x.(string)) > 0] *)
Definition nonempty_field (v : option string) : option string :=
  match v with
  | Some x => if String.eqb x "" then None else Some x
  | None => None
  end.

(** The field assignments of [pathRolesWrite] on [roleEntry]: user and
    realm must be non-empty on create; ttl and max_ttl take
    [d.Get(..)] (0, the schema declares no default) on create when not
    supplied. *)
Definition role_merge (create : bool) (d : roleFields) (roleEntry : proxmoxRoleEntry)
    : outcome proxmoxRoleEntry :=
  bind_outcome (required_field create (nonempty_field (rf_user d)) (RUser roleEntry)
                  "missing user in role") (fun user =>
  bind_outcome (required_field create (nonempty_field (rf_realm d)) (RRealm roleEntry)
                  "missing realm in role") (fun realm =>
  Ok {| Name := Name roleEntry; RUser := user; RRealm := realm;
        TTL := optional_field create (option_map duration_of_seconds (rf_ttl d))
                 (TTL roleEntry) (duration_of_seconds 0);
        MaxTTL := optional_field create (option_map duration_of_seconds (rf_max_ttl d))
                    (MaxTTL roleEntry) (duration_of_seconds 0) |})).

(** [&proxmoxRoleEntry{Name: name}] *)
Definition fresh_role (name : string) : proxmoxRoleEntry :=
  {| Name := name; RUser := ""; RRealm := ""; TTL := 0; MaxTTL := 0 |}.

(** [b.pathRolesWrite] *)
Definition pathRolesWrite (b : backend) (op : operation) (d : roleFields)
    : outcome (option response) * backend :=
  match rf_name d with
  | None => (Ok (Some (ErrorResponse "missing role name")), b)
  | Some name =>
      match getRole (b_storage b) name with
      | Err e => (Err e, b)
      | Panic e => (Panic e, b)
      | Ok r =>
          let roleEntry := match r with None => fresh_role name | Some r => r end in
          match role_merge (is_create op) d roleEntry with
          | Err e => (Err e, b)
          | Panic e => (Panic e, b)
          | Ok roleEntry =>
              if negb (MaxTTL roleEntry =? 0)%Z && (MaxTTL roleEntry <? TTL roleEntry)%Z
              then (Ok (Some (ErrorResponse "ttl cannot be greater than max_ttl")), b)
              else match setRole (b_storage b) name roleEntry with
                   | Err e => (Err e, b)
                   | Panic e => (Panic e, b)
                   | Ok s => (Ok None, set_b_storage b s)
                   end
          end
      end
  end.

(** [b.pathRolesDelete] *)
Definition pathRolesDelete (b : backend) (name : string) : outcome (option response) * backend :=
  match s_fault (b_storage b) OpDelete (role_key name) with
  | Some e => (Err ("error deleting role: " ++ e), b)
  | None => (Ok None, set_b_storage b (set_s_roles (b_storage b)
                                        (delete (role_key name) (s_roles (b_storage b)))))
  end.

(* ------------------------------------------------------------------ *)
(** ** Token identifiers (proxmox_api_token.go: [createToken]) *)

(** [uuid.UUID.String()]: lowercase hex of the 16 bytes in the groups
    8-4-4-4-12 ([encoding/hex] with the table "0123456789abcdef"). *)
Definition hextable : string := "0123456789abcdef".

Definition hex_char (n : nat) : ascii :=
  match String.get n hextable with Some c => c | None => "0"%char end.

Definition hex_Encode (bs : list byte) : list ascii :=
  flat_map (fun v => [hex_char (Byte.to_nat v / 16); hex_char (Nat.modulo (Byte.to_nat v) 16)]) bs.

Definition slice {A} (i j : nat) (l : list A) : list A := firstn (j - i) (skipn i l).

Definition uuid_String (uuid : list byte) : string :=
  string_of_list_ascii
    (hex_Encode (slice 0 4 uuid) ++ ["-"%char] ++
     hex_Encode (slice 4 6 uuid) ++ ["-"%char] ++
     hex_Encode (slice 6 8 uuid) ++ ["-"%char] ++
     hex_Encode (slice 8 10 uuid) ++ ["-"%char] ++
     hex_Encode (slice 10 16 uuid)).

(** [strings.NewReplacer(old1, new1, ...)] where every old and new string is
    a single byte: Go builds a [byteReplacer], a byte table in which the
    first pair naming a byte wins, and [Replace] maps every byte. *)
Definition NewReplacer (oldnew : list (ascii * ascii)) : ascii -> ascii :=
  fun c => match List.find (fun p => Ascii.eqb (fst p) c) oldnew with
           | Some (_, n) => n
           | None => c
           end.

Fixpoint Replace (r : ascii -> ascii) (s : string) : string :=
  match s with
  | EmptyString => EmptyString
  | String c s' => String (r c) (Replace r s')
  end.

Definition tokenIdReplacer : ascii -> ascii :=
  NewReplacer [("0", "g"); ("1", "h"); ("2", "i"); ("3", "j"); ("4", "k");
               ("5", "l"); ("6", "m"); ("7", "n"); ("8", "o"); ("9", "p")]%char.

(** The token identifier [createToken] derives from the fresh UUID. *)
Definition tokenId_of_uuid (uuid : list byte) : string :=
  Replace tokenIdReplacer (uuid_String uuid).

(* ------------------------------------------------------------------ *)
(** ** The Token Lifecycle Engine *)

(** [proxmoxToken] *)
Record proxmoxToken := {
  TokenID : string;
  Secret : string
}.

Definition proxmoxTokenType : string := "proxmox_api_token".

(** [createToken(ctx, c, user, realm, expire, privsep)]; [uuid] is the
    value of [uuid.New()].  The remote calls made are returned with the
    result. *)
Definition createToken (c : proxmoxClient) (user realm : string) (expire : Z)
    (privsep : bool) (uuid : list byte) : outcome proxmoxToken * list px_call :=
  if String.eqb user "" then (Err "error creating token: no user provided", [])
  else if String.eqb realm "" then (Err "error creating token: no realm provided", [])
  else
    let rawTokenId := uuid_String uuid in
    let tokenId := Replace tokenIdReplacer rawTokenId in
    match px_user_from_api c user realm with
    | Some e => (Err ("error when setting up API user: " ++ e), [PxGetUser user realm])
    | None =>
        let t := {| TokenId := tokenId; Comment := "Managed by Vault";
                    Expire := expire; Privsep := privsep |} in
        let calls := [PxGetUser user realm; PxCreateApiToken user realm t] in
        match px_create_api_token c user realm t with
        | Ok secret => (Ok {| TokenID := tokenId; Secret := secret |}, calls)
        | Err e => (Err ("error from API when creating token: " ++ e), calls)
        | Panic e => (Panic e, calls)
        end
    end.

(** [time.Now().Add(role.TTL).Unix()], [now] being the current instant in
    nanoseconds since the Unix epoch. *)
Definition unix_after (now ttl : Z) : Z := Z.div (now + ttl) Second.

(** [b.createToken(ctx, s, role)] (path_config.go).  [createToken] never
    returns a nil token without an error, so the [token == nil] branch is
    unreachable and left out. *)
Definition b_createToken (b : backend) (role : proxmoxRoleEntry) (now : Z)
    (uuid : list byte) : outcome proxmoxToken * backend * list px_call :=
  let (rc, b) := getClient b in
  match rc with
  | Err e => (Err e, b, [])
  | Panic e => (Panic e, b, [])
  | Ok client =>
      let expire := if (0 <? TTL role)%Z then unix_after now (TTL role) else 0%Z in
      let privsep := false in
      let (r, calls) := createToken client (RUser role) (RRealm role) expire privsep uuid in
      match r with
      | Err e => (Err ("error creating Proxmox API token for role '" ++ Name role ++ "': " ++ e),
                  b, calls)
      | Panic e => (Panic e, b, calls)
      | Ok token => (Ok token, b, calls)
      end
  end.

(** [framework.Secret.Response(data, internal)] of the Vault SDK: the
    internal data is copied and tagged with [secret_type] (the lease manager
    finds the Revoke and Renew callbacks through it); the lease takes the
    secret's [DefaultDuration] (unset here, so 0) and is renewable because
    a [Renew] callback is registered. *)
Definition Secret_Response (type : string) (data internal : list (string * value))
    : response :=
  {| resp_data := data;
     resp_secret := Some {| sec_ttl := 0; sec_max_ttl := 0; sec_renewable := true;
                            sec_internal := assoc_set "secret_type" (VStr type) internal |} |}.

Definition set_lease (resp : response) (ttl maxttl : Z -> Z) : response :=
  {| resp_data := resp_data resp;
     resp_secret := option_map (fun s => {| sec_ttl := ttl (sec_ttl s);
                                            sec_max_ttl := maxttl (sec_max_ttl s);
                                            sec_renewable := sec_renewable s;
                                            sec_internal := sec_internal s |})
                               (resp_secret resp) |}.

(** [b.createUserCreds(ctx, req, role)] *)
Definition createUserCreds (b : backend) (role : proxmoxRoleEntry) (now : Z)
    (uuid : list byte) : outcome (option response) * backend * list px_call :=
  match b_createToken b role now uuid with
  | (Err e, b, calls) => (Err e, b, calls)
  | (Panic e, b, calls) => (Panic e, b, calls)
  | (Ok token, b, calls) =>
      let tokenIDFull := full_token (RUser role) (RRealm role) (TokenID token) in
      let resp := Secret_Response proxmoxTokenType
                    [("token_id", VStr (TokenID token));
                     ("token_id_full", VStr tokenIDFull);
                     ("secret", VStr (Secret token))]
                    [("token_id", VStr (TokenID token));
                     ("role", VStr (Name role))] in
      let resp := set_lease resp
                    (fun t => if (0 <? TTL role)%Z then TTL role else t)
                    (fun t => if (0 <? MaxTTL role)%Z then MaxTTL role else t) in
      (Ok (Some resp), b, calls)
  end.

(** [b.pathCredentialsRead] for the role [roleName]. *)
Definition pathCredentialsRead (b : backend) (roleName : string) (now : Z)
    (uuid : list byte) : outcome (option response) * backend * list px_call :=
  match getRole (b_storage b) roleName with
  | Err e => (Err ("error retrieving role: " ++ e), b, [])
  | Panic e => (Panic e, b, [])
  | Ok None => (Err "error retrieving role: role is nil", b, [])
  | Ok (Some roleEntry) => createUserCreds b roleEntry now uuid
  end.

(** [deleteToken(ctx, c, user, realm, tokenID)] *)
Definition deleteToken (c : proxmoxClient) (user realm tokenID : string)
    : option string * list px_call :=
  match px_user_from_api c user realm with
  | Some e => (Some e, [PxGetUser user realm])
  | None =>
      let t := {| TokenId := tokenID; Comment := ""; Expire := 0; Privsep := false |} in
      (px_delete_api_token c user realm t, [PxGetUser user realm; PxDeleteApiToken user realm t])
  end.

(** [b.tokenRevoke(ctx, req, d)] on a lease whose internal data is
    [internal].  [roleRaw.(string)] panics on a non-string value. *)
Definition tokenRevoke (b : backend) (internal : list (string * value))
    : outcome (option response) * backend * list px_call :=
  let (rc, b) := getClient b in
  match rc with
  | Err e => (Err ("error getting client: " ++ e), b, [])
  | Panic e => (Panic e, b, [])
  | Ok client =>
      let tokenID := match assoc_get "token_id" internal with
                     | None => Ok ""
                     | Some (VStr t) => Ok t
                     | Some _ => Err "invalid value for token in secret internal data"
                     end in
      match tokenID with
      | Err e => (Err e, b, [])
      | Panic e => (Panic e, b, [])
      | Ok tokenID =>
          match assoc_get "role" internal with
          | None => (Err "secret is missing role internal data", b, [])
          | Some (VStr role) =>
              match getRole (b_storage b) role with
              | Err e => (Err ("error retrieving role: " ++ e), b, [])
              | Panic e => (Panic e, b, [])
              | Ok None => (Err "error retrieving role: role is nil", b, [])
              | Ok (Some roleEntry) =>
                  let (err, calls) := deleteToken client (RUser roleEntry) (RRealm roleEntry) tokenID in
                  match err with
                  | Some e => (Err ("error revoking user token: " ++ e), b, calls)
                  | None => (Ok None, b, calls)
                  end
              end
          | Some _ => (Panic "interface conversion: interface {} is not string", b, [])
          end
      end
  end.

(** [b.tokenRenew(ctx, req, d)] on the lease [sec]: the response carries
    [req.Secret] (no data) with the role's current TTL and MaxTTL written
    over the lease's when they are positive.  It does not use the client. *)
Definition tokenRenew (b : backend) (sec : lease_secret) : outcome (option response) :=
  match assoc_get "role" (sec_internal sec) with
  | None => Err "secret is missing role internal data"
  | Some (VStr role) =>
      match getRole (b_storage b) role with
      | Err e => Err ("error retrieving role: " ++ e)
      | Panic e => Panic e
      | Ok None => Err "error retrieving role: role is nil"
      | Ok (Some roleEntry) =>
          let resp := {| resp_data := []; resp_secret := Some sec |} in
          Ok (Some (set_lease resp
                      (fun t => if (0 <? TTL roleEntry)%Z then TTL roleEntry else t)
                      (fun t => if (0 <? MaxTTL roleEntry)%Z then MaxTTL roleEntry else t)))
      end
  | Some _ => Panic "interface conversion: interface {} is not string"
  end.

End Backend.

(* ------------------------------------------------------------------ *)
(** ** Reachable backend states

    A backend starts with an empty client cache over any storage content
    and then serves requests one after the other; the storage collaborator
    may start or stop failing operations between requests. *)

Inductive backend_step `{ProxmoxApi} : backend -> backend -> Prop :=
| StepConfigWrite b op d r b' :
    pathConfigWrite b op d = (r, b') -> backend_step b b'
| StepConfigDelete b r b' :
    pathConfigDelete b = (r, b') -> backend_step b b'
| StepRoleWrite b op d r b' :
    pathRolesWrite b op d = (r, b') -> backend_step b b'
| StepRoleDelete b name r b' :
    pathRolesDelete b name = (r, b') -> backend_step b b'
| StepGetClient b r b' :
    getClient b = (r, b') -> backend_step b b'
| StepCreds b name now uuid r b' calls :
    pathCredentialsRead b name now uuid = (r, b', calls) -> backend_step b b'
| StepRevoke b internal r b' calls :
    tokenRevoke b internal = (r, b', calls) -> backend_step b b'
| StepInvalidate b key :
    backend_step b (invalidate b key)
| StepFaults b f :
    backend_step b (set_b_storage b {| s_config := s_config (b_storage b);
                                       s_roles := s_roles (b_storage b);
                                       s_fault := f |}).

Inductive reachable `{ProxmoxApi} : backend -> Prop :=
| reachable_init s : reachable {| b_client := None; b_storage := s |}
| reachable_step b b' : reachable b -> backend_step b b' -> reachable b'.

(** The profile [getClient] builds from: the stored one, or
    [new(proxmoxConfig)] when none is stored. *)
Definition current_profile (b : backend) : proxmoxConfig :=
  match s_config (b_storage b) with None => new_proxmoxConfig | Some c => c end.

(* ------------------------------------------------------------------ *)
(** ** Concurrent callers of [getClient]

    An interleaving model of [getClient] (backend.go) run by several
    goroutines on one [sync.RWMutex].  Each program point is one atomic
    step:
    - [PRLock]: [b.lock.RLock()] (waits while a writer holds the lock);
    - [PCheck]: [if b.client != nil];
    - [PRUnlockRet]: the deferred [RUnlock] of the early return;
    - [PRUnlock]: [b.lock.RUnlock()];
    - [PLock]: [b.lock.Lock()] (waits for the readers and the writer);
    - [PBuild]: [getConfig], [newClient] and [b.client = ...], taken to
      succeed; handles are numbered by build;
    - [PUnlock]: the deferred [Unlock].
    Go's RWMutex also makes [RLock] wait behind a blocked [Lock]; that only
    removes interleavings and does not affect the schedule used below. *)
Module GetClientConcurrency.

Inductive pc := PRLock | PCheck | PRUnlockRet | PRUnlock | PLock | PBuild | PUnlock | PDone.

(** A build by goroutine [thread], with the cache content it replaced. *)
Inductive event := EvBuild (thread : nat) (cached_before : option nat).

Record state := {
  readers : nat;
  writer : bool;
  client : option nat;
  builds : nat;
  pcs : list pc;
  log : list event
}.

Definition with_pc (s : state) (i : nat) (p : pc) (r : nat) (w : bool)
    (c : option nat) (n : nat) (l : list event) : state :=
  {| readers := r; writer := w; client := c; builds := n;
     pcs := <[i := p]> (pcs s); log := l |}.

(** Goroutine [i] takes one step, if it can. *)
Definition step (s : state) (i : nat) : option state :=
  match pcs s !! i with
  | None => None
  | Some p =>
      match p with
      | PRLock =>
          if writer s then None
          else Some (with_pc s i PCheck (S (readers s)) (writer s) (client s) (builds s) (log s))
      | PCheck =>
          match client s with
          | Some _ => Some (with_pc s i PRUnlockRet (readers s) (writer s) (client s) (builds s) (log s))
          | None => Some (with_pc s i PRUnlock (readers s) (writer s) (client s) (builds s) (log s))
          end
      | PRUnlockRet =>
          Some (with_pc s i PDone (pred (readers s)) (writer s) (client s) (builds s) (log s))
      | PRUnlock =>
          Some (with_pc s i PLock (pred (readers s)) (writer s) (client s) (builds s) (log s))
      | PLock =>
          if writer s || negb (Nat.eqb (readers s) 0) then None
          else Some (with_pc s i PBuild (readers s) true (client s) (builds s) (log s))
      | PBuild =>
          Some (with_pc s i PUnlock (readers s) (writer s) (Some (S (builds s))) (S (builds s))
                  (log s ++ [EvBuild i (client s)]))
      | PUnlock =>
          Some (with_pc s i PDone (readers s) false (client s) (builds s) (log s))
      | PDone => None
      end
  end.

(** Run a schedule: the goroutines to step, in order. *)
Fixpoint run (s : state) (sched : list nat) : option state :=
  match sched with
  | [] => Some s
  | i :: sched' => match step s i with None => None | Some s' => run s' sched' end
  end.

(** [n] goroutines call [getClient] on an empty cache. *)
Definition init (n : nat) : state :=
  {| readers := 0; writer := false; client := None; builds := 0;
     pcs := repeat PRLock n; log := [] |}.

(** The goroutines inside the build path, holding the write lock. *)
Definition in_build (p : pc) : bool :=
  match p with PBuild | PUnlock => true | _ => false end.

Definition holds_read (p : pc) : bool :=
  match p with PCheck | PRUnlockRet | PRUnlock => true | _ => false end.

Fixpoint countb {A} (f : A -> bool) (l : list A) : nat :=
  match l with
  | [] => 0
  | x :: l' => (if f x then 1 else 0) + countb f l'
  end.

End GetClientConcurrency.

(* ------------------------------------------------------------------ *)
(** ** Vocabulary of the properties *)

Definition is_digit (c : ascii) : bool :=
  let n := nat_of_ascii c in ((48 <=? n) && (n <=? 57))%nat.

Definition is_alpha (c : ascii) : bool :=
  let n := nat_of_ascii c in
  (((65 <=? n) && (n <=? 90)) || ((97 <=? n) && (n <=? 122)))%nat.

Fixpoint string_forallb (f : ascii -> bool) (s : string) : bool :=
  match s with
  | EmptyString => true
  | String c s' => f c && string_forallb f s'
  end.

Definition starts_with_alpha (s : string) : bool :=
  match s with
  | EmptyString => false
  | String c _ => is_alpha c
  end.

Definition set_token_secret (c : proxmoxConfig) (secret : string) : proxmoxConfig :=
  {| User := User c; Realm := Realm c; ApiTokenID := ApiTokenID c;
     ApiTokenSecret := secret; ApiURL := ApiURL c;
     SkipCertValidation := SkipCertValidation c; HTTPHeaders := HTTPHeaders c;
     ProxyServer := ProxyServer c; TaskTimeout := TaskTimeout c |}.

(** The cached client, if any, is the one [newClient] builds from the
    current profile. *)
Definition client_coherent `{ProxmoxApi} (b : backend) : Prop :=
  forall c, b_client b = Some c -> newClient (Some (current_profile b)) = Ok c.

(** ** Concrete inputs *)

(** A Proxmox API on which every call succeeds. *)
Definition okApi : ProxmoxApi := {|
  px_new_client := fun _ _ _ _ _ => None;
  px_user_from_api := fun _ _ _ => None;
  px_create_api_token := fun _ _ _ _ => Ok "7f3c-secret";
  px_delete_api_token := fun _ _ _ _ => None |}.

Definition byte_of (n : nat) : byte :=
  match Byte.of_nat n with Some b => b | None => x00 end.

(** The UUID 00112233-4455-6677-8899-aabbccddeeff. *)
Definition sample_uuid : list byte :=
  map byte_of [0; 17; 34; 51; 68; 85; 102; 119; 136; 153; 170; 187; 204; 221; 238; 255].

Definition empty_storage : storage :=
  {| s_config := None; s_roles := ∅; s_fault := fun _ _ => None |}.

Definition sample_config : proxmoxConfig :=
  {| User := "root"; Realm := "pam"; ApiTokenID := "tok1"; ApiTokenSecret := "s";
     ApiURL := "https://h:8006/api2/json"; SkipCertValidation := false;
     HTTPHeaders := ""; ProxyServer := ""; TaskTimeout := duration_of_seconds 120 |}.

Definition sample_role : proxmoxRoleEntry :=
  {| Name := "alice"; RUser := "alice"; RRealm := "pve";
     TTL := duration_of_seconds 300; MaxTTL := 0 |}.

(** A fresh mount: nothing stored, nothing cached. *)
Definition fresh_backend : backend := {| b_client := None; b_storage := empty_storage |}.

(** A mount holding [sample_config] and the role [alice]. *)
Definition configured_backend : backend :=
  {| b_client := None;
     b_storage := {| s_config := Some sample_config;
                     s_roles := <[role_key "alice" := sample_role]> ∅;
                     s_fault := fun _ _ => None |} |}.

(** A role write [ttl=500, max_ttl=100] on [alice]. *)
Definition ttl_over_max_fields : roleFields :=
  {| rf_name := Some "alice"; rf_user := Some "alice"; rf_realm := Some "pve";
     rf_ttl := Some 500%Z; rf_max_ttl := Some 100%Z |}.

(** The creation request of the config scenario. *)
Definition sample_config_fields : configFields :=
  {| f_user := Some "root"; f_realm := Some "pam"; f_token_id := Some "tok1";
     f_token_secret := Some "s"; f_proxmox_url := Some "https://h:8006/api2/json";
     f_insecure_skip_tls_verify := None; f_http_headers := None;
     f_proxy_server := None; f_timeout := None |}.

(** An update on [role/bob] naming only a ttl. *)
Definition partial_role_fields : roleFields :=
  {| rf_name := Some "bob"; rf_user := None; rf_realm := None;
     rf_ttl := Some 60%Z; rf_max_ttl := None |}.

(** A role create [alice] with [ttl=300, max_ttl=600]. *)
Definition ttl_ok_role_fields : roleFields :=
  {| rf_name := Some "alice"; rf_user := Some "alice"; rf_realm := Some "pve";
     rf_ttl := Some 300%Z; rf_max_ttl := Some 600%Z |}.

(** An update of [alice] that only sets max_ttl to 900. *)
Definition max_ttl_only_fields : roleFields :=
  {| rf_name := Some "alice"; rf_user := Some ""; rf_realm := None;
     rf_ttl := None; rf_max_ttl := Some 900%Z |}.


(** The client [newClient] builds from [sample_config]. *)
Definition sample_client : proxmoxClient :=
  {| pc_api_url := ApiURL sample_config; pc_http_headers := ""; pc_tls := None;
     pc_proxy_server := ""; pc_timeout := 120; pc_token := "root@pam!tok1";
     pc_token_secret := "s" |}.

(** A lease on [alice] with ttl and max_ttl of 60 s, and the response a
    renewal against [configured_backend] gives for it. *)
Definition issued_lease : lease_secret :=
  {| sec_ttl := duration_of_seconds 60; sec_max_ttl := duration_of_seconds 60;
     sec_renewable := true; sec_internal := [("token_id", VStr "x"); ("role", VStr "alice")] |}.

Definition renewed_lease_response : response :=
  {| resp_data := [];
     resp_secret := Some {| sec_ttl := duration_of_seconds 300;
                            sec_max_ttl := duration_of_seconds 60;
                            sec_renewable := true;
                            sec_internal := [("token_id", VStr "x"); ("role", VStr "alice")] |} |}.

(** The record an update on an absent role [name] builds. *)
Definition updated_fresh_role (name : string) (d : roleFields) : proxmoxRoleEntry :=
  {| Name := name;
     RUser := match nonempty_field (rf_user d) with Some u => u | None => "" end;
     RRealm := match nonempty_field (rf_realm d) with Some r => r | None => "" end;
     TTL := match rf_ttl d with Some t => duration_of_seconds t | None => 0%Z end;
     MaxTTL := match rf_max_ttl d with Some t => duration_of_seconds t | None => 0%Z end |}.

(** Every stored role satisfies the check of [pathRolesWrite]: a non-zero
    MaxTTL is at least the TTL. *)
Definition roles_valid (s : storage) : Prop :=
  forall k e, s_roles s !! k = Some e -> (MaxTTL e = 0 \/ TTL e <= MaxTTL e)%Z.

(* ================================================================== *)
(** * Properties *)

(** ** The token identifier *)

Lemma tokenIdReplacer_no_digit (c : ascii) : is_digit (tokenIdReplacer c) = false.
Proof.
  destruct c as [b0 b1 b2 b3 b4 b5 b6 b7].
  destruct b0, b1, b2, b3, b4, b5, b6, b7; reflexivity.
Qed.

Lemma tokenIdReplacer_hex_alpha (n : nat) : is_alpha (tokenIdReplacer (hex_char n)) = true.
Proof. do 16 (destruct n as [|n]; [reflexivity|]). reflexivity. Qed.

Lemma Replace_forallb (r : ascii -> bool) (f : ascii -> ascii) (s : string) :
  (forall c, r (f c) = true) -> string_forallb r (Replace f s) = true.
Proof.
  intros Hf. induction s as [|c s IH]; simpl; [reflexivity|].
  rewrite Hf, IH. reflexivity.
Qed.

(** C2: for every 16-byte UUID drawn by [uuid.New()], the identifier
    [createToken] derives from it starts with a letter and has no decimal
    digit. *)
Theorem tokenId_alpha_no_digits (uuid : list byte) (Hlen : length uuid = 16) :
  starts_with_alpha (tokenId_of_uuid uuid) = true /\
  string_forallb (fun c => negb (is_digit c)) (tokenId_of_uuid uuid) = true.
Proof.
  split.
  - destruct uuid as [|b0 rest]; [discriminate Hlen|].
    unfold tokenId_of_uuid, uuid_String. simpl.
    apply tokenIdReplacer_hex_alpha.
  - apply Replace_forallb. intros c. rewrite tokenIdReplacer_no_digit. reflexivity.
Qed.

Lemma tokenId_alpha_no_digits_witness :
  length sample_uuid = 16 /\
  starts_with_alpha (tokenId_of_uuid sample_uuid) = true /\
  string_forallb (fun c => negb (is_digit c)) (tokenId_of_uuid sample_uuid) = true.
Proof.
  split; [reflexivity|]. apply tokenId_alpha_no_digits. reflexivity.
Defined.

(** ** Config reads *)

(** C1: a config read when no Connection Profile is stored does not return
    a default profile: [pathConfigRead] dereferences the nil [*proxmoxConfig]
    that [getConfig] returns and the handler panics. *)
Theorem pathConfigRead_no_profile_panics (b : backend) :
  s_fault (b_storage b) OpGet configStoragePath = None ->
  s_config (b_storage b) = None ->
  pathConfigRead b = Panic "runtime error: invalid memory address or nil pointer dereference".
Proof.
  intros Hget Hnone. unfold pathConfigRead, getConfig. rewrite Hget, Hnone. reflexivity.
Qed.

Lemma pathConfigRead_no_profile_panics_witness :
  pathConfigRead fresh_backend =
    Panic "runtime error: invalid memory address or nil pointer dereference".
Proof. apply (pathConfigRead_no_profile_panics fresh_backend); reflexivity. Defined.

(** C5: a config read of a stored profile returns exactly the eight
    non-secret fields (user, realm, token_id, proxmox_url,
    insecure_skip_tls_verify, http_headers, proxy_server, timeout) with the
    profile's values; no key carries the token secret, and the response is
    the same whatever the stored secret is. *)
Theorem pathConfigRead_fields_without_secret (b : backend) (c : proxmoxConfig) :
  s_fault (b_storage b) OpGet configStoragePath = None ->
  s_config (b_storage b) = Some c ->
  exists resp,
    pathConfigRead b = Ok (Some resp) /\
    resp_data resp =
      [("user", VStr (User c)); ("realm", VStr (Realm c));
       ("token_id", VStr (ApiTokenID c)); ("proxmox_url", VStr (ApiURL c));
       ("insecure_skip_tls_verify", VBool (SkipCertValidation c));
       ("http_headers", VStr (HTTPHeaders c)); ("proxy_server", VStr (ProxyServer c));
       ("timeout", VInt (duration_int_seconds (TaskTimeout c)))] /\
    assoc_get "token_secret" (resp_data resp) = None /\
    forall secret : string,
      pathConfigRead (set_b_storage b (set_s_config (b_storage b)
                                         (Some (set_token_secret c secret))))
        = Ok (Some resp).
Proof.
  intros Hget Hc. unfold pathConfigRead, getConfig. rewrite Hget, Hc.
  eexists. split; [reflexivity|]. split; [reflexivity|]. split; [reflexivity|].
  intros secret. simpl. rewrite Hget. reflexivity.
Qed.

Lemma pathConfigRead_fields_without_secret_witness :
  exists resp,
    pathConfigRead configured_backend = Ok (Some resp) /\
    resp_data resp =
      [("user", VStr "root"); ("realm", VStr "pam"); ("token_id", VStr "tok1");
       ("proxmox_url", VStr "https://h:8006/api2/json");
       ("insecure_skip_tls_verify", VBool false); ("http_headers", VStr "");
       ("proxy_server", VStr ""); ("timeout", VInt 120)] /\
    assoc_get "token_secret" (resp_data resp) = None /\
    forall secret : string,
      pathConfigRead (set_b_storage configured_backend
           (set_s_config (b_storage configured_backend)
              (Some (set_token_secret sample_config secret)))) = Ok (Some resp).
Proof.
  apply (pathConfigRead_fields_without_secret configured_backend sample_config);
    reflexivity.
Defined.

(** ** Role writes *)

(** C3: when the record a role write would store has a positive MaxTTL and a
    TTL above it, the write answers with the user-facing error response
    "ttl cannot be greater than max_ttl" and leaves the backend, its role
    storage included, unchanged. *)
Theorem pathRolesWrite_ttl_over_max_rejected (b : backend) (op : operation)
    (d : roleFields) (name : string) (r0 : option proxmoxRoleEntry) (e : proxmoxRoleEntry) :
  rf_name d = Some name ->
  getRole (b_storage b) name = Ok r0 ->
  role_merge (is_create op) d (match r0 with None => fresh_role name | Some r => r end) = Ok e ->
  (0 < MaxTTL e)%Z -> (MaxTTL e < TTL e)%Z ->
  pathRolesWrite b op d = (Ok (Some (ErrorResponse "ttl cannot be greater than max_ttl")), b).
Proof.
  intros Hname Hget Hmerge Hpos Hlt. unfold pathRolesWrite.
  rewrite Hname, Hget, Hmerge.
  replace (MaxTTL e =? 0)%Z with false by (symmetry; apply Z.eqb_neq; lia).
  replace (MaxTTL e <? TTL e)%Z with true by (symmetry; apply Z.ltb_lt; lia).
  reflexivity.
Qed.

Lemma pathRolesWrite_ttl_over_max_rejected_witness :
  pathRolesWrite fresh_backend UpdateOperation ttl_over_max_fields =
    (Ok (Some (ErrorResponse "ttl cannot be greater than max_ttl")), fresh_backend).
Proof.
  apply (pathRolesWrite_ttl_over_max_rejected fresh_backend UpdateOperation
           ttl_over_max_fields "alice" None
           {| Name := "alice"; RUser := "alice"; RRealm := "pve";
              TTL := duration_of_seconds 500; MaxTTL := duration_of_seconds 100 |});
    try reflexivity; vm_compute; reflexivity.
Defined.

(** ** Revocation *)

Lemma getClient_storage `{ProxmoxApi} (b : backend) :
  b_storage (snd (getClient b)) = b_storage b.
Proof. unfold getClient. repeat case_match; reflexivity. Qed.

Lemma getClient_no_panic `{ProxmoxApi} (b : backend) (e : string) (b' : backend) :
  getClient b <> (Panic e, b').
Proof. unfold getClient, newClient, getConfig. repeat case_match; discriminate. Qed.

Lemma getRole_no_panic (s : storage) (name e : string) : getRole s name <> Panic e.
Proof. unfold getRole. repeat case_match; discriminate. Qed.

(** C4: revoking a lease whose role cannot be resolved (no ["role"] in the
    internal data, or a role name [getRole] does not find) fails with an
    error and makes no [DeleteApiToken] call. *)
Theorem tokenRevoke_unresolved_role_errors `{ProxmoxApi} (b : backend)
    (internal : list (string * value)) :
  (assoc_get "role" internal = None \/
   exists role, assoc_get "role" internal = Some (VStr role) /\
                forall r, getRole (b_storage b) role <> Ok (Some r)) ->
  let '(res, _, calls) := tokenRevoke b internal in
  (exists e, res = Err e) /\ forall u r t, ~ In (PxDeleteApiToken u r t) calls.
Proof.
  intros Hrole. unfold tokenRevoke.
  destruct (getClient b) as [rc b1] eqn:Hgc.
  assert (Hs : b_storage b1 = b_storage b)
    by (rewrite <- (getClient_storage b), Hgc; reflexivity).
  destruct rc as [client|e|e].
  3: exfalso; exact (getClient_no_panic b e b1 Hgc).
  2: split; [eauto | intros ? ? ? []].
  destruct (assoc_get "token_id" internal) as [[t| | |]|].
  2-4: split; [eauto | intros ? ? ? []].
  all: destruct Hrole as [Hnone | [role [Hr Hget]]].
  1,3: rewrite Hnone; split; [eauto | intros ? ? ? []].
  all: rewrite Hr, Hs; destruct (getRole (b_storage b) role) as [[re|]|e|e] eqn:Hg.
  all: try (exfalso; exact (Hget re eq_refl)).
  all: try (exfalso; exact (getRole_no_panic _ _ _ Hg)).
  all: split; [eauto | intros ? ? ? []].
Qed.

Lemma tokenRevoke_unresolved_role_errors_witness :
  let '(res, _, calls) := @tokenRevoke okApi configured_backend [("token_id", VStr "x")] in
  (exists e, res = Err e) /\ forall u r t, ~ In (PxDeleteApiToken u r t) calls.
Proof.
  apply (@tokenRevoke_unresolved_role_errors okApi configured_backend [("token_id", VStr "x")]).
  left. reflexivity.
Defined.

(** ** Issuance *)

(** C6 (as the code does it): a successful issuance answers [token_id],
    [token_id_full = user@realm!token_id] (the role's user and realm) and
    [secret]; the token identifier is the one derived from the UUID; the
    lease internal data is exactly [token_id], [role] and the [secret_type]
    tag the Vault framework adds, with no field for the secret. *)
Theorem createUserCreds_payload `{ProxmoxApi} (b : backend) (role : proxmoxRoleEntry)
    (now : Z) (uuid : list byte) (resp : response) (b' : backend) (calls : list px_call) :
  createUserCreds b role now uuid = (Ok (Some resp), b', calls) ->
  let tid := tokenId_of_uuid uuid in
  exists secret s,
    resp_data resp = [("token_id", VStr tid);
                      ("token_id_full", VStr (full_token (RUser role) (RRealm role) tid));
                      ("secret", VStr secret)] /\
    resp_secret resp = Some s /\
    sec_internal s = [("token_id", VStr tid); ("role", VStr (Name role));
                      ("secret_type", VStr proxmoxTokenType)].
Proof.
  intros Hc tid. unfold createUserCreds, b_createToken, createToken in Hc.
  destruct (getClient b) as [rc b1]. destruct rc as [client|e|e]; [|discriminate..].
  destruct (String.eqb (RUser role) ""); [discriminate|].
  destruct (String.eqb (RRealm role) ""); [discriminate|].
  destruct (px_user_from_api client (RUser role) (RRealm role)); [discriminate|].
  match type of Hc with
  | context [px_create_api_token ?c ?u ?r ?t] => destruct (px_create_api_token c u r t) as [secret|e|e]
  end; [|discriminate..].
  injection Hc as <- _ _. simpl.
  eexists _, _. split; [reflexivity|]. split; [reflexivity|]. reflexivity.
Qed.

Lemma createUserCreds_payload_witness :
  match @createUserCreds okApi configured_backend sample_role 0 sample_uuid with
  | (Ok (Some resp), _, _) =>
      let tid := tokenId_of_uuid sample_uuid in
      exists secret s,
        resp_data resp = [("token_id", VStr tid);
                          ("token_id_full", VStr (full_token "alice" "pve" tid));
                          ("secret", VStr secret)] /\
        resp_secret resp = Some s /\
        sec_internal s = [("token_id", VStr tid); ("role", VStr "alice");
                          ("secret_type", VStr proxmoxTokenType)]
  | _ => False
  end.
Proof.
  destruct (@createUserCreds okApi configured_backend sample_role 0 sample_uuid)
    as [[r b'] calls] eqn:E.
  pose proof E as E'. vm_compute in E'. injection E' as <- <- <-.
  exact (@createUserCreds_payload okApi configured_backend sample_role 0 sample_uuid _ _ _ E).
Defined.

(** C6 as stated fails: on a successful issuance the lease internal data
    holds a third entry, [secret_type], besides [token_id] and [role]. *)
Lemma createUserCreds_internal_has_secret_type :
  match @createUserCreds okApi configured_backend sample_role 0 sample_uuid with
  | (Ok (Some resp), _, _) =>
      option_map (fun s => map fst (sec_internal s)) (resp_secret resp) =
        Some ["token_id"; "role"; "secret_type"]
  | _ => False
  end.
Proof. vm_compute. reflexivity. Qed.

(** ** Invalidation of the client cache *)

Lemma pathConfigWrite_ok_reset (b b' : backend) (op : operation) (d : configFields)
    (r : option response) :
  pathConfigWrite b op d = (Ok r, b') -> b_client b' = None.
Proof.
  unfold pathConfigWrite. intros Hw. repeat case_match; try discriminate;
    injection Hw as _ <-; reflexivity.
Qed.

Lemma pathConfigDelete_ok_reset (b b' : backend) (r : option response) :
  pathConfigDelete b = (Ok r, b') -> b_client b' = None.
Proof.
  unfold pathConfigDelete. intros Hd. case_match; try discriminate.
  injection Hd as _ <-. reflexivity.
Qed.

(** From an empty cache, [getClient] builds from the current profile. *)
Lemma getClient_empty_builds `{ProxmoxApi} (b : backend) (c : proxmoxClient) (b'' : backend) :
  b_client b = None -> getClient b = (Ok c, b'') ->
  newClient (Some (current_profile b)) = Ok c /\ b_client b'' = Some c.
Proof.
  intros Hnone Hg. unfold getClient in Hg. rewrite Hnone in Hg.
  unfold getConfig in Hg. destruct (s_fault (b_storage b) OpGet configStoragePath);
    [discriminate|].
  unfold current_profile.
  destruct (newClient (Some match s_config (b_storage b) with
                            | Some c0 => c0 | None => new_proxmoxConfig end)) eqn:Hn;
    try discriminate.
  injection Hg as -> <-. split; reflexivity.
Qed.

(** C7: after a successful config write or delete the client cache is
    empty, and the next [getClient] that succeeds builds its client from
    the profile stored at that point (and caches it). *)
Theorem config_write_delete_resets_client `{ProxmoxApi} (b b' : backend) (r : option response) :
  ((exists op d, pathConfigWrite b op d = (Ok r, b')) \/ pathConfigDelete b = (Ok r, b')) ->
  b_client b' = None /\
  forall c b'', getClient b' = (Ok c, b'') ->
    newClient (Some (current_profile b')) = Ok c /\ b_client b'' = Some c.
Proof.
  intros Hop.
  assert (Hnone : b_client b' = None).
  { destruct Hop as [[op [d Hw]] | Hd].
    - exact (pathConfigWrite_ok_reset _ _ _ _ _ Hw).
    - exact (pathConfigDelete_ok_reset _ _ _ Hd). }
  split; [exact Hnone|]. intros c b'' Hg. exact (getClient_empty_builds b' c b'' Hnone Hg).
Qed.

Lemma config_write_delete_resets_client_witness :
  let '(r, b') := pathConfigWrite fresh_backend CreateOperation sample_config_fields in
  b_client b' = None /\
  forall c b'', @getClient okApi b' = (Ok c, b'') ->
    @newClient okApi (Some (current_profile b')) = Ok c /\ b_client b'' = Some c.
Proof.
  destruct (pathConfigWrite fresh_backend CreateOperation sample_config_fields)
    as [r b'] eqn:E.
  pose proof E as E'. vm_compute in E'. injection E' as <- _.
  apply (@config_write_delete_resets_client okApi fresh_backend b' None).
  left. exists CreateOperation, sample_config_fields. exact E.
Defined.

(** ** Building the client *)

Lemma client_coherent_same `{ProxmoxApi} (b b' : backend) :
  b_client b' = b_client b -> s_config (b_storage b') = s_config (b_storage b) ->
  client_coherent b -> client_coherent b'.
Proof.
  unfold client_coherent, current_profile. intros Hc Hs Hcoh c Hb.
  rewrite Hs. apply Hcoh. rewrite <- Hc. exact Hb.
Qed.

Lemma client_coherent_empty `{ProxmoxApi} (b : backend) :
  b_client b = None -> client_coherent b.
Proof. unfold client_coherent. intros Hn c Hc. congruence. Qed.

Lemma getClient_coherent `{ProxmoxApi} (b : backend) :
  client_coherent b -> client_coherent (snd (getClient b)).
Proof.
  intros Hcoh. unfold getClient.
  destruct (b_client b) eqn:Hb; [exact Hcoh|].
  unfold getConfig. destruct (s_fault (b_storage b) OpGet configStoragePath); [exact Hcoh|].
  destruct (newClient _) eqn:Hn; simpl; try (apply client_coherent_empty; reflexivity).
  intros c' Hc'. simpl in Hc'. injection Hc' as <-. exact Hn.
Qed.

Lemma b_createToken_backend `{ProxmoxApi} (b : backend) (role : proxmoxRoleEntry)
    (now : Z) (uuid : list byte) (r : outcome proxmoxToken) (b' : backend)
    (calls : list px_call) :
  b_createToken b role now uuid = (r, b', calls) -> b' = snd (getClient b).
Proof.
  unfold b_createToken. destruct (getClient b) as [rc b1]. simpl.
  intros Hc. repeat case_match; congruence.
Qed.

Lemma backend_step_coherent `{ProxmoxApi} (b b' : backend) :
  backend_step b b' -> client_coherent b -> client_coherent b'.
Proof.
  intros Hstep Hcoh. destruct Hstep as
    [b op d r b' Hw | b r b' Hd | b op d r b' Hw | b name r b' Hd | b r b' Hg
    | b name now uuid r b' calls Hc | b internal r b' calls Hr | b key | b f].
  - destruct r as [r|e|e].
    + apply client_coherent_empty. exact (pathConfigWrite_ok_reset _ _ _ _ _ Hw).
    + unfold pathConfigWrite in Hw. repeat case_match; try discriminate;
        injection Hw as _ <-; exact Hcoh.
    + unfold pathConfigWrite in Hw. repeat case_match; try discriminate;
        injection Hw as _ <-; exact Hcoh.
  - unfold pathConfigDelete in Hd. case_match; injection Hd as _ <-; [exact Hcoh|].
    apply client_coherent_empty. reflexivity.
  - unfold pathRolesWrite, setRole in Hw. repeat case_match; simplify_eq;
      try exact Hcoh; apply (client_coherent_same b); try exact Hcoh; reflexivity.
  - unfold pathRolesDelete in Hd. case_match; injection Hd as _ <-; [exact Hcoh|].
    apply (client_coherent_same b); [reflexivity | reflexivity | exact Hcoh].
  - pose proof (getClient_coherent b Hcoh) as Hc. rewrite Hg in Hc. exact Hc.
  - unfold pathCredentialsRead, createUserCreds in Hc.
    repeat case_match; try (injection Hc as _ <- _; exact Hcoh);
      injection Hc as _ <- _; subst;
      match goal with
      | E : b_createToken _ _ _ _ = _ |- _ => rewrite (b_createToken_backend _ _ _ _ _ _ _ E)
      end; apply getClient_coherent; exact Hcoh.
  - unfold tokenRevoke in Hr. pose proof (getClient_coherent b Hcoh) as Hc.
    destruct (getClient b) as [rc b1]. simpl in Hc.
    repeat case_match; injection Hr as _ <- _; exact Hc.
  - unfold invalidate. case_match; [apply client_coherent_empty; reflexivity | exact Hcoh].
  - apply (client_coherent_same b); [reflexivity | reflexivity | exact Hcoh].
Qed.

Lemma reachable_coherent `{ProxmoxApi} (b : backend) : reachable b -> client_coherent b.
Proof.
  induction 1 as [s | b b' _ IH Hstep].
  - apply client_coherent_empty. reflexivity.
  - exact (backend_step_coherent b b' Hstep IH).
Qed.

(** C8: in every reachable backend, when the current profile (the stored
    one, or [new(proxmoxConfig)] when none is stored) has an empty token
    identifier and the storage read succeeds, [getClient] fails with
    [newClient]'s "client api token was not defined"; whenever it
    succeeds, the identifier is non-empty and the client's token is
    [user@realm!tokenID] of the current profile. *)
Theorem getClient_token_id `{ProxmoxApi} (b : backend) :
  reachable b ->
  (s_fault (b_storage b) OpGet configStoragePath = None ->
   ApiTokenID (current_profile b) = "" ->
   fst (getClient b) = Err "client api token was not defined") /\
  (forall c, fst (getClient b) = Ok c ->
   ApiTokenID (current_profile b) <> "" /\
   pc_token c = full_token (User (current_profile b)) (Realm (current_profile b))
                           (ApiTokenID (current_profile b))).
Proof.
  intros Hreach. pose proof (reachable_coherent b Hreach) as Hcoh.
  assert (Hbuild : forall c, b_client b = Some c \/ fst (getClient b) = Ok c ->
                   newClient (Some (current_profile b)) = Ok c).
  { intros c [Hb | Hg]; [exact (Hcoh c Hb)|].
    destruct (b_client b) as [c0|] eqn:Hb.
    - unfold getClient in Hg. rewrite Hb in Hg. simpl in Hg. injection Hg as <-.
      exact (Hcoh c0 Hb).
    - destruct (getClient b) as [rc b''] eqn:Hgc. simpl in Hg. subst rc.
      exact (proj1 (getClient_empty_builds b c b'' Hb Hgc)). }
  split.
  - intros Hget Hempty.
    destruct (b_client b) as [c|] eqn:Hb.
    + exfalso. pose proof (Hbuild c (or_introl eq_refl)) as Hn.
      unfold newClient in Hn. rewrite Hempty in Hn. discriminate.
    + unfold getClient. rewrite Hb. unfold getConfig. rewrite Hget.
      fold (current_profile b). simpl. unfold newClient. rewrite Hempty. reflexivity.
  - intros c Hg. pose proof (Hbuild c (or_intror Hg)) as Hn. unfold newClient in Hn.
    destruct (String.eqb (ApiTokenID (current_profile b)) "") eqn:He; [discriminate|].
    case_match; [discriminate|]. injection Hn as <-. split; [|reflexivity].
    apply String.eqb_neq. exact He.
Qed.

Lemma getClient_token_id_witness :
  (@getClient okApi fresh_backend).1 = Err "client api token was not defined".
Proof.
  apply (proj1 (@getClient_token_id okApi fresh_backend (reachable_init empty_storage)));
    reflexivity.
Defined.

(** ** Updates on an absent role *)

(** C9 (as the code does it): an update on [role/{name}] when no record
    exists never fails with a not-found error.  When the storage works, it
    either builds the fresh record named [name] (user and realm from the
    request when supplied non-empty, otherwise empty strings; ttl and
    max_ttl from the request, otherwise 0) and stores it, or, when that
    record's ttl exceeds its non-zero max_ttl, answers the user-facing
    error response and stores nothing. *)
Theorem role_update_absent_role (b : backend) (d : roleFields) (name : string) :
  rf_name d = Some name -> name <> "" ->
  s_fault (b_storage b) OpGet (role_key name) = None ->
  s_fault (b_storage b) OpPut (role_key name) = None ->
  s_roles (b_storage b) !! role_key name = None ->
  let e := updated_fresh_role name d in
  ((MaxTTL e <> 0 /\ MaxTTL e < TTL e)%Z /\
   pathRolesWrite b UpdateOperation d =
     (Ok (Some (ErrorResponse "ttl cannot be greater than max_ttl")), b)) \/
  (~ (MaxTTL e <> 0 /\ MaxTTL e < TTL e)%Z /\
   pathRolesWrite b UpdateOperation d =
     (Ok None, set_b_storage b (set_s_roles (b_storage b)
                                  (<[role_key name := e]> (s_roles (b_storage b)))))).
Proof.
  intros Hname Hne Hget Hput Habs e.
  assert (Hg : getRole (b_storage b) name = Ok None).
  { unfold getRole. rewrite (proj2 (String.eqb_neq _ _) Hne), Hget, Habs. reflexivity. }
  assert (Hm : role_merge false d (fresh_role name) = Ok e).
  { subst e. unfold role_merge, required_field, optional_field, updated_fresh_role.
    destruct (nonempty_field (rf_user d)), (nonempty_field (rf_realm d)),
      (rf_ttl d), (rf_max_ttl d); reflexivity. }
  unfold pathRolesWrite. rewrite Hname, Hg. simpl is_create. rewrite Hm.
  unfold setRole. rewrite Hput.
  destruct (negb (MaxTTL e =? 0)%Z && (MaxTTL e <? TTL e)%Z) eqn:Hc; [left | right].
  - apply andb_true_iff in Hc as [H1 H2]. apply negb_true_iff, Z.eqb_neq in H1.
    apply Z.ltb_lt in H2. split; [split; assumption | reflexivity].
  - split; [|reflexivity]. intros [H1 H2].
    apply Z.eqb_neq in H1. apply Z.ltb_lt in H2. rewrite H1, H2 in Hc. discriminate.
Qed.

Lemma role_update_absent_role_witness :
  let e := updated_fresh_role "bob" partial_role_fields in
  ((MaxTTL e <> 0 /\ MaxTTL e < TTL e)%Z /\
   pathRolesWrite fresh_backend UpdateOperation partial_role_fields =
     (Ok (Some (ErrorResponse "ttl cannot be greater than max_ttl")), fresh_backend)) \/
  (~ (MaxTTL e <> 0 /\ MaxTTL e < TTL e)%Z /\
   pathRolesWrite fresh_backend UpdateOperation partial_role_fields =
     (Ok None, set_b_storage fresh_backend
                 (set_s_roles (b_storage fresh_backend)
                    (<[role_key "bob" := e]> (s_roles (b_storage fresh_backend)))))).
Proof.
  apply (role_update_absent_role fresh_backend partial_role_fields "bob");
    try reflexivity. discriminate.
Defined.

(** C9 as stated fails: an update on the absent role [alice] with
    [ttl=500, max_ttl=100] is refused and persists no record. *)
Lemma role_update_absent_ttl_over_max_not_persisted :
  pathRolesWrite fresh_backend UpdateOperation ttl_over_max_fields =
    (Ok (Some (ErrorResponse "ttl cannot be greater than max_ttl")), fresh_backend) /\
  s_roles (b_storage fresh_backend) !! role_key "alice" = None.
Proof. split; vm_compute; reflexivity. Qed.

(** ** Concurrent [getClient] callers *)

Section Concurrency.
Import GetClientConcurrency.

Lemma countb_insert {A} (f : A -> bool) (l : list A) (i : nat) (x y : A) :
  l !! i = Some y ->
  countb f (<[i := x]> l) + (if f y then 1 else 0) = countb f l + (if f x then 1 else 0).
Proof.
  revert i. induction l as [|z l IH]; intros [|i] Hl; simpl in *; try discriminate.
  - injection Hl as ->. lia.
  - specialize (IH i Hl). lia.
Qed.

(** The lock's counters match the goroutines that hold it. *)
Definition lock_inv (s : state) : Prop :=
  countb in_build (pcs s) = (if writer s then 1 else 0) /\
  countb holds_read (pcs s) = readers s.

Lemma step_lock_inv (s s' : state) (i : nat) :
  step s i = Some s' -> lock_inv s -> lock_inv s'.
Proof.
  intros Hs [HW HR]. unfold step in Hs.
  destruct (pcs s !! i) as [p|] eqn:Hl; [|discriminate].
  pose proof (countb_insert in_build (pcs s) i) as CW.
  pose proof (countb_insert holds_read (pcs s) i) as CR.
  destruct p; repeat case_match; simplify_eq; unfold lock_inv, with_pc; simpl;
    match goal with
    | |- context [<[i := ?x]> (pcs s)] => specialize (CW x _ Hl); specialize (CR x _ Hl)
    end; simpl in CW, CR;
    repeat match goal with H : writer s = _ |- _ => rewrite H in HW end;
    try (apply orb_false_iff in H as [Hw Hr]; rewrite Hw in HW;
         apply negb_false_iff, Nat.eqb_eq in Hr);
    split; lia.
Qed.

Lemma run_lock_inv (sched : list nat) (s s' : state) :
  run s sched = Some s' -> lock_inv s -> lock_inv s'.
Proof.
  revert s. induction sched as [|i sched IH]; intros s Hr Hinv; simpl in Hr.
  - injection Hr as <-. exact Hinv.
  - destruct (step s i) as [s1|] eqn:Hs; [|discriminate].
    exact (IH s1 Hr (step_lock_inv s s1 i Hs Hinv)).
Qed.

Lemma countb_repeat {A} (f : A -> bool) (x : A) (n : nat) :
  f x = false -> countb f (repeat x n) = 0.
Proof. intros Hf. induction n as [|n IH]; simpl; [reflexivity|]. rewrite Hf, IH. reflexivity. Qed.

(** At most one goroutine is ever inside the build path: the exclusive
    lock serialises the builds. *)
Lemma getClient_one_build_in_flight (n : nat) (sched : list nat) (s : state) :
  run (init n) sched = Some s -> countb in_build (pcs s) <= 1.
Proof.
  intros Hr. assert (Hinv : lock_inv (init n)).
  { unfold lock_inv, init. simpl. rewrite !countb_repeat by reflexivity. split; reflexivity. }
  destruct (run_lock_inv sched _ _ Hr Hinv) as [HW _].
  rewrite HW. destruct (writer s); lia.
Qed.

(** C10: the upgrade from the read lock to the write lock is not
    double-checked.  Two goroutines calling [getClient] on an empty cache
    both see it empty under the read lock; the first builds and caches
    handle 1, and the second, once it holds the write lock, builds again
    over the cached handle instead of returning it. *)
Theorem getClient_rebuilds_over_cached_handle :
  exists s,
    run (init 2) [0; 0; 0; 1; 1; 1; 0; 0; 0; 1; 1; 1] = Some s /\
    log s = [EvBuild 0 None; EvBuild 1 (Some 1)] /\
    builds s = 2 /\ client s = Some 2 /\ pcs s = [PDone; PDone].
Proof. eexists. split; [vm_compute; reflexivity|]. repeat split; reflexivity. Qed.

End Concurrency.

(* ================================================================== *)
(** * Further properties of the code *)

(** ** Config writes *)

Lemma seconds_roundtrip (t : Z) :
  (- 9223372036 <= t <= 9223372036)%Z ->
  duration_int_seconds (duration_of_seconds t) = t.
Proof.
  intros Ht. unfold duration_int_seconds, duration_of_seconds, wrap64, Second.
  rewrite Z.mod_small by lia. replace (t * 1000000000 + 2 ^ 63 - 2 ^ 63)%Z
    with (t * 1000000000)%Z by lia.
  apply Z.quot_mul. lia.
Qed.

(** A config create that supplies the five required fields (a non-empty
    URL) succeeds, and a following read returns the supplied values, with
    the declared defaults (skip-verify false, no headers, no proxy, 120 s)
    for optional fields not supplied. *)
Theorem config_create_read_roundtrip (b : backend) (d : configFields)
    (user realm tokenID secret url : string) :
  s_fault (b_storage b) OpGet configStoragePath = None ->
  s_fault (b_storage b) OpPut configStoragePath = None ->
  f_user d = Some user -> f_realm d = Some realm -> f_token_id d = Some tokenID ->
  f_token_secret d = Some secret -> f_proxmox_url d = Some url -> url <> "" ->
  (forall t, f_timeout d = Some t -> - 9223372036 <= t <= 9223372036)%Z ->
  exists b',
    pathConfigWrite b CreateOperation d = (Ok None, b') /\
    pathConfigRead b' = Ok (Some (data_response
      [("user", VStr user); ("realm", VStr realm); ("token_id", VStr tokenID);
       ("proxmox_url", VStr url);
       ("insecure_skip_tls_verify",
          VBool (match f_insecure_skip_tls_verify d with Some v => v | None => false end));
       ("http_headers", VStr (match f_http_headers d with Some v => v | None => "" end));
       ("proxy_server", VStr (match f_proxy_server d with Some v => v | None => "" end));
       ("timeout", VInt (match f_timeout d with Some t => t | None => 120 end))])).
Proof.
  intros Hget Hput Hu Hr Ht Hs Hurl Hne Htime.
  unfold pathConfigWrite, getConfig. rewrite Hget.
  assert (Hm : forall c, exists c', config_merge true d c = Ok c' /\
            User c' = user /\ Realm c' = realm /\ ApiTokenID c' = tokenID /\
            ApiURL c' = url /\
            SkipCertValidation c' = match f_insecure_skip_tls_verify d with Some v => v | None => false end /\
            HTTPHeaders c' = match f_http_headers d with Some v => v | None => "" end /\
            ProxyServer c' = match f_proxy_server d with Some v => v | None => "" end /\
            duration_int_seconds (TaskTimeout c') = match f_timeout d with Some t => t | None => 120%Z end).
  { intros c. unfold config_merge, required_field.
    rewrite Hu, Hr, Ht, Hs, Hurl. rewrite (proj2 (String.eqb_neq _ _) Hne). simpl.
    eexists. split; [reflexivity|]. simpl. unfold optional_field.
    repeat split; try reflexivity.
    destruct (f_timeout d) as [t|]; simpl.
    + apply seconds_roundtrip. exact (Htime t eq_refl).
    + reflexivity. }
  destruct (s_config (b_storage b)) as [c|] eqn:Hsc; simpl;
    [destruct (Hm c) as [c2 [Hc2 [G1 [G2 [G3 [G4 [G5 [G6 [G7 G8]]]]]]]]]
    |destruct (Hm new_proxmoxConfig) as [c2 [Hc2 [G1 [G2 [G3 [G4 [G5 [G6 [G7 G8]]]]]]]]]];
    rewrite Hc2, Hput; eexists; (split; [reflexivity|]);
    unfold pathConfigRead, getConfig; simpl; rewrite Hget;
    rewrite G1, G2, G3, G4, G5, G6, G7, G8; reflexivity.
Qed.

Lemma config_create_read_roundtrip_witness :
  exists b',
    pathConfigWrite fresh_backend CreateOperation sample_config_fields = (Ok None, b') /\
    pathConfigRead b' = Ok (Some (data_response
      [("user", VStr "root"); ("realm", VStr "pam"); ("token_id", VStr "tok1");
       ("proxmox_url", VStr "https://h:8006/api2/json");
       ("insecure_skip_tls_verify", VBool false); ("http_headers", VStr "");
       ("proxy_server", VStr ""); ("timeout", VInt 120)])).
Proof.
  apply (config_create_read_roundtrip fresh_backend sample_config_fields
           "root" "pam" "tok1" "s" "https://h:8006/api2/json");
    try reflexivity.
  - discriminate.
  - intros t Ht. discriminate.
Defined.

Lemma required_field_update (v : option string) (old missing : string) :
  required_field false v old missing = Ok (match v with Some x => x | None => old end).
Proof. destruct v; reflexivity. Qed.

(** A successful config update changes only the fields the request
    supplies: every field it leaves out keeps its stored value, and so does
    the URL when the request gives it empty. *)
Theorem config_update_keeps_unsupplied (b b' : backend) (d : configFields)
    (r : option response) (c c' : proxmoxConfig) :
  s_config (b_storage b) = Some c ->
  pathConfigWrite b UpdateOperation d = (Ok r, b') ->
  s_config (b_storage b') = Some c' ->
  (f_user d = None -> User c' = User c) /\
  (f_realm d = None -> Realm c' = Realm c) /\
  (f_token_id d = None -> ApiTokenID c' = ApiTokenID c) /\
  (f_token_secret d = None -> ApiTokenSecret c' = ApiTokenSecret c) /\
  (f_proxmox_url d = None \/ f_proxmox_url d = Some "" -> ApiURL c' = ApiURL c) /\
  (f_insecure_skip_tls_verify d = None -> SkipCertValidation c' = SkipCertValidation c) /\
  (f_http_headers d = None -> HTTPHeaders c' = HTTPHeaders c) /\
  (f_proxy_server d = None -> ProxyServer c' = ProxyServer c) /\
  (f_timeout d = None -> TaskTimeout c' = TaskTimeout c).
Proof.
  intros Hc Hw Hc'. unfold pathConfigWrite, getConfig in Hw.
  destruct (s_fault (b_storage b) OpGet configStoragePath); [discriminate|].
  rewrite Hc in Hw. simpl in Hw. unfold config_merge in Hw.
  rewrite !required_field_update in Hw. simpl in Hw.
  destruct (s_fault (b_storage b) OpPut configStoragePath); [discriminate|].
  injection Hw as _ <-. simpl in Hc'. injection Hc' as <-. simpl.
  repeat split; intros H; try rewrite H; try reflexivity.
  destruct H as [H | H]; rewrite H; reflexivity.
Qed.

Lemma config_update_keeps_unsupplied_witness :
  let d := {| f_user := Some "bob"; f_realm := None; f_token_id := None;
              f_token_secret := None; f_proxmox_url := Some "";
              f_insecure_skip_tls_verify := None; f_http_headers := None;
              f_proxy_server := None; f_timeout := None |} in
  let '(r, b') := pathConfigWrite configured_backend UpdateOperation d in
  match r, s_config (b_storage b') with
  | Ok r, Some c' =>
      (f_user d = None -> User c' = User sample_config) /\
      (f_realm d = None -> Realm c' = Realm sample_config) /\
      (f_token_id d = None -> ApiTokenID c' = ApiTokenID sample_config) /\
      (f_token_secret d = None -> ApiTokenSecret c' = ApiTokenSecret sample_config) /\
      (f_proxmox_url d = None \/ f_proxmox_url d = Some "" -> ApiURL c' = ApiURL sample_config) /\
      (f_insecure_skip_tls_verify d = None ->
         SkipCertValidation c' = SkipCertValidation sample_config) /\
      (f_http_headers d = None -> HTTPHeaders c' = HTTPHeaders sample_config) /\
      (f_proxy_server d = None -> ProxyServer c' = ProxyServer sample_config) /\
      (f_timeout d = None -> TaskTimeout c' = TaskTimeout sample_config)
  | _, _ => False
  end.
Proof.
  intros d. destruct (pathConfigWrite configured_backend UpdateOperation d) as [r b'] eqn:E.
  pose proof E as E'. vm_compute in E'. injection E' as <- <-.
  exact (config_update_keeps_unsupplied configured_backend _ d None sample_config _
           eq_refl E eq_refl).
Defined.

(** A config update when no profile is stored fails with "config not found
    during update operation" and changes nothing. *)
Theorem config_update_without_profile (b : backend) (d : configFields) :
  s_fault (b_storage b) OpGet configStoragePath = None ->
  s_config (b_storage b) = None ->
  pathConfigWrite b UpdateOperation d = (Err "config not found during update operation", b).
Proof.
  intros Hget Hnone. unfold pathConfigWrite, getConfig. rewrite Hget, Hnone. reflexivity.
Qed.

Lemma config_update_without_profile_witness :
  pathConfigWrite fresh_backend UpdateOperation sample_config_fields =
    (Err "config not found during update operation", fresh_backend).
Proof. apply config_update_without_profile; reflexivity. Defined.

(** A config write that does not succeed leaves the backend as it was:
    nothing stored, and the client cache kept. *)
Theorem config_write_failure_unchanged (b b' : backend) (op : operation) (d : configFields)
    (r : outcome (option response)) :
  pathConfigWrite b op d = (r, b') -> (forall x, r <> Ok x) -> b' = b.
Proof.
  unfold pathConfigWrite. intros Hw Hr. repeat case_match; simplify_eq; try reflexivity;
    exfalso; eapply Hr; reflexivity.
Qed.

Lemma config_write_failure_unchanged_witness :
  let d := {| f_user := Some "root"; f_realm := Some "pam"; f_token_id := Some "tok1";
              f_token_secret := Some "s"; f_proxmox_url := Some "";
              f_insecure_skip_tls_verify := None; f_http_headers := None;
              f_proxy_server := None; f_timeout := None |} in
  snd (pathConfigWrite configured_backend CreateOperation d) = configured_backend.
Proof.
  intros d. destruct (pathConfigWrite configured_backend CreateOperation d) as [r b'] eqn:E.
  apply (config_write_failure_unchanged configured_backend b' CreateOperation d r E).
  vm_compute in E. injection E as <- _. discriminate.
Defined.

(** A config create succeeds only when the request supplies user, realm,
    token_id and token_secret, and a non-empty proxmox_url. *)
Theorem config_create_requires_fields (b b' : backend) (d : configFields)
    (r : option response) :
  pathConfigWrite b CreateOperation d = (Ok r, b') ->
  is_Some (f_user d) /\ is_Some (f_realm d) /\ is_Some (f_token_id d) /\
  is_Some (f_token_secret d) /\ exists url, f_proxmox_url d = Some url /\ url <> "".
Proof.
  unfold pathConfigWrite, config_merge, required_field. intros Hw.
  repeat case_match; simplify_eq.
  all: repeat split; eauto.
  all: eexists; split; [reflexivity|]; apply String.eqb_neq; assumption.
Qed.

Lemma config_create_requires_fields_witness :
  is_Some (f_user sample_config_fields) /\ is_Some (f_realm sample_config_fields) /\
  is_Some (f_token_id sample_config_fields) /\ is_Some (f_token_secret sample_config_fields) /\
  exists url, f_proxmox_url sample_config_fields = Some url /\ url <> "".
Proof.
  destruct (pathConfigWrite fresh_backend CreateOperation sample_config_fields)
    as [r b'] eqn:E.
  pose proof E as E'. vm_compute in E'. injection E' as <- _.
  exact (config_create_requires_fields fresh_backend b' sample_config_fields None E).
Defined.

(** After a successful config delete, [getClient] fails with "client api
    token was not defined": the cache is empty and the default profile has
    no token identifier. *)
Theorem config_delete_then_getClient_fails `{ProxmoxApi} (b b' : backend) (r : option response) :
  pathConfigDelete b = (Ok r, b') ->
  s_fault (b_storage b) OpGet configStoragePath = None ->
  fst (getClient b') = Err "client api token was not defined".
Proof.
  unfold pathConfigDelete. intros Hd Hget. case_match; [discriminate|].
  injection Hd as _ <-. unfold getClient, getConfig. simpl. rewrite Hget. reflexivity.
Qed.

Lemma config_delete_then_getClient_fails_witness :
  fst (@getClient okApi (snd (pathConfigDelete configured_backend))) =
    Err "client api token was not defined".
Proof.
  destruct (pathConfigDelete configured_backend) as [r b'] eqn:E.
  pose proof E as E'. vm_compute in E'. injection E' as <- _.
  exact (@config_delete_then_getClient_fails okApi configured_backend b' None E eq_refl).
Defined.

(** ** Role writes *)

Lemma nonempty_field_some (v : option string) (u : string) :
  nonempty_field v = Some u -> u <> "" /\ v = Some u.
Proof.
  unfold nonempty_field. destruct v as [x|]; [|discriminate].
  destruct (String.eqb x "") eqn:E; [discriminate|]. intros H; injection H as <-.
  split; [apply String.eqb_neq; exact E | reflexivity].
Qed.

Lemma role_merge_ok (create : bool) (d : roleFields) (r e : proxmoxRoleEntry) :
  role_merge create d r = Ok e ->
  Name e = Name r /\
  RUser e = match nonempty_field (rf_user d) with Some u => u | None => RUser r end /\
  RRealm e = match nonempty_field (rf_realm d) with Some x => x | None => RRealm r end /\
  TTL e = optional_field create (option_map duration_of_seconds (rf_ttl d)) (TTL r) 0%Z /\
  MaxTTL e = optional_field create (option_map duration_of_seconds (rf_max_ttl d)) (MaxTTL r) 0%Z /\
  (create = true -> RUser e <> "" /\ RRealm e <> "").
Proof.
  unfold role_merge, required_field. intros Hm.
  destruct (nonempty_field (rf_user d)) as [u|] eqn:Hu;
    destruct (nonempty_field (rf_realm d)) as [x|] eqn:Hx;
    destruct create; simpl in Hm; try discriminate; injection Hm as <-; simpl;
    repeat split; try reflexivity; try discriminate.
  all: first [ exact (proj1 (nonempty_field_some _ _ Hu))
             | exact (proj1 (nonempty_field_some _ _ Hx)) ].
Qed.

Lemma pathRolesWrite_ok (b b' : backend) (op : operation) (d : roleFields) :
  pathRolesWrite b op d = (Ok None, b') ->
  exists name r0 e,
    rf_name d = Some name /\ getRole (b_storage b) name = Ok r0 /\
    role_merge (is_create op) d (match r0 with None => fresh_role name | Some r => r end) = Ok e /\
    (MaxTTL e = 0 \/ TTL e <= MaxTTL e)%Z /\
    b' = set_b_storage b (set_s_roles (b_storage b)
                            (<[role_key name := e]> (s_roles (b_storage b)))).
Proof.
  unfold pathRolesWrite, setRole. intros Hw.
  destruct (rf_name d) as [name|]; [|discriminate].
  destruct (getRole (b_storage b) name) as [r0|e|e] eqn:Hg; try discriminate.
  destruct (role_merge _ d _) as [e|e|e] eqn:Hm; try discriminate.
  destruct (negb (MaxTTL e =? 0)%Z && (MaxTTL e <? TTL e)%Z) eqn:Hc; [discriminate|].
  destruct (s_fault (b_storage b) OpPut (role_key name)); [discriminate|].
  injection Hw as <-. exists name, r0, e. repeat split; try assumption; try reflexivity.
  apply andb_false_iff in Hc as [Hc | Hc].
  - left. apply negb_false_iff, Z.eqb_eq in Hc. exact Hc.
  - right. apply Z.ltb_ge in Hc. exact Hc.
Qed.

Lemma pathRolesWrite_not_ok (b b' : backend) (op : operation) (d : roleFields)
    (r : outcome (option response)) :
  pathRolesWrite b op d = (r, b') -> r <> Ok None -> b' = b.
Proof.
  unfold pathRolesWrite, setRole. intros Hw Hr.
  repeat case_match; simplify_eq; try reflexivity; exfalso; apply Hr; reflexivity.
Qed.

(** A role write that does not succeed (a hard error or the user-facing
    error response) leaves the backend, its storage included, as it was. *)
Theorem role_write_failure_unchanged (b b' : backend) (op : operation) (d : roleFields)
    (r : outcome (option response)) :
  pathRolesWrite b op d = (r, b') -> r <> Ok None -> b' = b.
Proof. exact (pathRolesWrite_not_ok b b' op d r). Qed.

Lemma role_write_failure_unchanged_witness :
  snd (pathRolesWrite fresh_backend CreateOperation partial_role_fields) = fresh_backend.
Proof.
  destruct (pathRolesWrite fresh_backend CreateOperation partial_role_fields) as [r b'] eqn:E.
  apply (role_write_failure_unchanged fresh_backend b' CreateOperation partial_role_fields r E).
  vm_compute in E. injection E as <- _. discriminate.
Defined.

(** After a successful role write the role is stored under its name: its
    user and realm are the supplied non-empty values, its ttl and max_ttl the
    supplied ones, and a non-zero max_ttl is at least the ttl. *)
Theorem role_write_stored (b b' : backend) (op : operation) (d : roleFields) (name : string) :
  pathRolesWrite b op d = (Ok None, b') -> rf_name d = Some name ->
  exists e,
    s_roles (b_storage b') !! role_key name = Some e /\
    (MaxTTL e = 0 \/ TTL e <= MaxTTL e)%Z /\
    (forall u, nonempty_field (rf_user d) = Some u -> RUser e = u) /\
    (forall x, nonempty_field (rf_realm d) = Some x -> RRealm e = x) /\
    (forall t, rf_ttl d = Some t -> TTL e = duration_of_seconds t) /\
    (forall t, rf_max_ttl d = Some t -> MaxTTL e = duration_of_seconds t).
Proof.
  intros Hw Hn. destruct (pathRolesWrite_ok b b' op d Hw)
    as [name' [r0 [e [Hn' [Hg [Hm [Hv ->]]]]]]].
  rewrite Hn in Hn'. injection Hn' as <-.
  destruct (role_merge_ok _ _ _ _ Hm) as [_ [Hu [Hx [Ht [Hmt _]]]]].
  exists e. simpl. split; [apply lookup_insert_eq|]. split; [exact Hv|].
  repeat split.
  - intros u Hu'. rewrite Hu, Hu'. reflexivity.
  - intros x Hx'. rewrite Hx, Hx'. reflexivity.
  - intros t Ht'. rewrite Ht, Ht'. reflexivity.
  - intros t Ht'. rewrite Hmt, Ht'. reflexivity.
Qed.

Lemma role_write_stored_witness :
  exists e,
    s_roles (b_storage (snd (pathRolesWrite fresh_backend UpdateOperation partial_role_fields)))
      !! role_key "bob" = Some e /\
    (MaxTTL e = 0 \/ TTL e <= MaxTTL e)%Z /\
    (forall u, nonempty_field (rf_user partial_role_fields) = Some u -> RUser e = u) /\
    (forall x, nonempty_field (rf_realm partial_role_fields) = Some x -> RRealm e = x) /\
    (forall t, rf_ttl partial_role_fields = Some t -> TTL e = duration_of_seconds t) /\
    (forall t, rf_max_ttl partial_role_fields = Some t -> MaxTTL e = duration_of_seconds t).
Proof.
  destruct (pathRolesWrite fresh_backend UpdateOperation partial_role_fields) as [r b'] eqn:E.
  pose proof E as E'. vm_compute in E'. injection E' as <- _.
  exact (role_write_stored fresh_backend b' UpdateOperation partial_role_fields "bob" E eq_refl).
Defined.

(** A successful role create stores a non-empty user and realm. *)
Theorem role_create_requires_user_realm (b b' : backend) (d : roleFields) (name : string) :
  pathRolesWrite b CreateOperation d = (Ok None, b') -> rf_name d = Some name ->
  exists e, s_roles (b_storage b') !! role_key name = Some e /\ RUser e <> "" /\ RRealm e <> "".
Proof.
  intros Hw Hn. destruct (pathRolesWrite_ok b b' CreateOperation d Hw)
    as [name' [r0 [e [Hn' [Hg [Hm [Hv ->]]]]]]].
  rewrite Hn in Hn'. injection Hn' as <-.
  destruct (role_merge_ok _ _ _ _ Hm) as [_ [_ [_ [_ [_ Hc]]]]].
  exists e. simpl. split; [apply lookup_insert_eq|]. exact (Hc eq_refl).
Qed.

Lemma role_create_requires_user_realm_witness :
  exists e, s_roles (b_storage (snd (pathRolesWrite fresh_backend CreateOperation
                                      ttl_ok_role_fields)))
              !! role_key "alice" = Some e /\ RUser e <> "" /\ RRealm e <> "".
Proof.
  destruct (pathRolesWrite fresh_backend CreateOperation ttl_ok_role_fields) as [r b'] eqn:E.
  pose proof E as E'. vm_compute in E'. injection E' as <- _.
  exact (role_create_requires_user_realm fresh_backend b' ttl_ok_role_fields "alice" E eq_refl).
Defined.

(** An update of a stored role keeps every field the request leaves out
    (an empty user or realm counts as left out) and keeps the role's name. *)
Theorem role_update_keeps_unsupplied (b b' : backend) (d : roleFields) (name : string)
    (old : proxmoxRoleEntry) :
  s_roles (b_storage b) !! role_key name = Some old ->
  rf_name d = Some name ->
  pathRolesWrite b UpdateOperation d = (Ok None, b') ->
  exists e, s_roles (b_storage b') !! role_key name = Some e /\
    Name e = Name old /\
    (nonempty_field (rf_user d) = None -> RUser e = RUser old) /\
    (nonempty_field (rf_realm d) = None -> RRealm e = RRealm old) /\
    (rf_ttl d = None -> TTL e = TTL old) /\
    (rf_max_ttl d = None -> MaxTTL e = MaxTTL old).
Proof.
  intros Hold Hn Hw. destruct (pathRolesWrite_ok b b' UpdateOperation d Hw)
    as [name' [r0 [e [Hn' [Hg [Hm [_ ->]]]]]]].
  rewrite Hn in Hn'. injection Hn' as <-.
  unfold getRole in Hg. destruct (String.eqb name ""); [discriminate|].
  destruct (s_fault (b_storage b) OpGet (role_key name)); [discriminate|].
  injection Hg as Hg. rewrite Hold in Hg. subst r0.
  destruct (role_merge_ok _ _ _ _ Hm) as [Hnm [Hu [Hx [Ht [Hmt _]]]]].
  exists e. simpl. split; [apply lookup_insert_eq|]. split; [exact Hnm|].
  repeat split.
  - intros H0. rewrite Hu, H0. reflexivity.
  - intros H0. rewrite Hx, H0. reflexivity.
  - intros H0. rewrite Ht, H0. reflexivity.
  - intros H0. rewrite Hmt, H0. reflexivity.
Qed.

Lemma role_update_keeps_unsupplied_witness :
  exists e, s_roles (b_storage (snd (pathRolesWrite configured_backend UpdateOperation
                                      max_ttl_only_fields))) !! role_key "alice" = Some e /\
    Name e = Name sample_role /\
    (nonempty_field (rf_user max_ttl_only_fields) = None -> RUser e = RUser sample_role) /\
    (nonempty_field (rf_realm max_ttl_only_fields) = None -> RRealm e = RRealm sample_role) /\
    (rf_ttl max_ttl_only_fields = None -> TTL e = TTL sample_role) /\
    (rf_max_ttl max_ttl_only_fields = None -> MaxTTL e = MaxTTL sample_role).
Proof.
  destruct (pathRolesWrite configured_backend UpdateOperation max_ttl_only_fields)
    as [r b'] eqn:E.
  pose proof E as E'. vm_compute in E'. injection E' as <- _.
  exact (role_update_keeps_unsupplied configured_backend b' max_ttl_only_fields "alice"
           sample_role eq_refl eq_refl E).
Defined.



(** ** Role deletion *)

(** Deleting a role succeeds whether or not it exists (only a storage
    failure is an error), and a later [getRole] of a non-empty name finds
    nothing. *)
Theorem role_delete_then_get (b : backend) (name : string) :
  s_fault (b_storage b) OpDelete (role_key name) = None ->
  s_fault (b_storage b) OpGet (role_key name) = None ->
  name <> "" ->
  exists b', pathRolesDelete b name = (Ok None, b') /\
             getRole (b_storage b') name = Ok None.
Proof.
  intros Hd Hg Hn. unfold pathRolesDelete. rewrite Hd.
  eexists. split; [reflexivity|]. unfold getRole. simpl.
  apply String.eqb_neq in Hn. rewrite Hn, Hg.
  rewrite lookup_delete_eq. reflexivity.
Qed.

Lemma role_delete_then_get_witness :
  exists b', pathRolesDelete fresh_backend "bob" = (Ok None, b') /\
             getRole (b_storage b') "bob" = Ok None.
Proof.
  apply role_delete_then_get; [reflexivity | reflexivity | discriminate].
Defined.

(** Deleting one role leaves every other role as it was. *)
Theorem role_delete_keeps_others (b b' : backend) (name other : string)
    (r : outcome (option response)) :
  pathRolesDelete b name = (r, b') -> other <> name ->
  s_roles (b_storage b') !! role_key other = s_roles (b_storage b) !! role_key other.
Proof.
  unfold pathRolesDelete. intros Hd Hne.
  destruct (s_fault (b_storage b) OpDelete (role_key name)); injection Hd as _ <-;
    [reflexivity|].
  simpl. apply lookup_delete_ne. unfold role_key. intros Heq.
  apply Hne. simpl in Heq. injection Heq as Heq. exact (eq_sym Heq).
Qed.

Lemma role_delete_keeps_others_witness :
  s_roles (b_storage (snd (pathRolesDelete configured_backend "bob"))) !! role_key "alice"
  = Some sample_role.
Proof.
  destruct (pathRolesDelete configured_backend "bob") as [r b'] eqn:E. cbn [snd].
  rewrite (role_delete_keeps_others configured_backend b' "bob" "alice" r E
             ltac:(discriminate)).
  reflexivity.
Defined.

(** ** The role store keeps [ttl <= max_ttl] *)

Lemma roles_valid_ext (s s' : storage) :
  s_roles s' = s_roles s -> roles_valid s -> roles_valid s'.
Proof. unfold roles_valid. intros -> Hv. exact Hv. Qed.

Lemma pathConfigWrite_roles (b b' : backend) (op : operation) (d : configFields)
    (r : outcome (option response)) :
  pathConfigWrite b op d = (r, b') -> s_roles (b_storage b') = s_roles (b_storage b).
Proof. unfold pathConfigWrite. intros Hw. repeat case_match; simplify_eq; reflexivity. Qed.

Lemma pathConfigDelete_roles (b b' : backend) (r : outcome (option response)) :
  pathConfigDelete b = (r, b') -> s_roles (b_storage b') = s_roles (b_storage b).
Proof. unfold pathConfigDelete. intros Hd. repeat case_match; simplify_eq; reflexivity. Qed.

Lemma pathCredentialsRead_storage `{ProxmoxApi} (b b' : backend) (name : string) (now : Z)
    (uuid : list byte) (r : outcome (option response)) (calls : list px_call) :
  pathCredentialsRead b name now uuid = (r, b', calls) -> b_storage b' = b_storage b.
Proof.
  unfold pathCredentialsRead, createUserCreds. intros Hc.
  repeat case_match; try (injection Hc as _ <- _; reflexivity);
    injection Hc as _ <- _; subst;
    match goal with
    | E : b_createToken _ _ _ _ = _ |- _ => rewrite (b_createToken_backend _ _ _ _ _ _ _ E)
    end; apply getClient_storage.
Qed.

Lemma tokenRevoke_storage `{ProxmoxApi} (b b' : backend) (internal : list (string * value))
    (r : outcome (option response)) (calls : list px_call) :
  tokenRevoke b internal = (r, b', calls) -> b_storage b' = b_storage b.
Proof.
  unfold tokenRevoke. intros Hr. pose proof (getClient_storage b) as Hs.
  destruct (getClient b) as [rc b1]. simpl in Hs.
  repeat case_match; injection Hr as _ <- _; exact Hs.
Qed.

(** Every operation of the backend keeps the stored roles valid: when no
    stored role has a ttl above its non-zero max_ttl before, none has after. *)
Theorem roles_valid_step `{ProxmoxApi} (b b' : backend) :
  backend_step b b' -> roles_valid (b_storage b) -> roles_valid (b_storage b').
Proof.
  intros Hstep Hv. destruct Hstep as
    [b op d r b' Hw | b r b' Hd | b op d r b' Hw | b name r b' Hd | b r b' Hg
    | b name now uuid r b' calls Hc | b internal r b' calls Hr | b key | b f].
  - exact (roles_valid_ext _ _ (pathConfigWrite_roles _ _ _ _ _ Hw) Hv).
  - exact (roles_valid_ext _ _ (pathConfigDelete_roles _ _ _ Hd) Hv).
  - assert (Hdec : r = Ok None \/ r <> Ok None)
      by (destruct r as [[x|]|x|x]; [right; discriminate | left; reflexivity
                                    | right; discriminate | right; discriminate]).
    destruct Hdec as [-> | Hne].
    + destruct (pathRolesWrite_ok b b' op d Hw)
        as [name [r0 [e [_ [_ [_ [He ->]]]]]]].
      unfold roles_valid. simpl. intros k e' Hk.
      destruct (decide (k = role_key name)) as [-> | Hk'].
      * rewrite lookup_insert_eq in Hk. injection Hk as <-. exact He.
      * rewrite lookup_insert_ne in Hk by congruence. exact (Hv k e' Hk).
    + rewrite (pathRolesWrite_not_ok b b' op d r Hw Hne). exact Hv.
  - unfold pathRolesDelete in Hd. case_match; injection Hd as _ <-; [exact Hv|].
    unfold roles_valid. simpl. intros k e Hk.
    apply lookup_delete_Some in Hk as [_ Hk]. exact (Hv k e Hk).
  - pose proof (getClient_storage b) as Hs. rewrite Hg in Hs. simpl in Hs.
    rewrite Hs. exact Hv.
  - rewrite (pathCredentialsRead_storage _ _ _ _ _ _ _ Hc). exact Hv.
  - rewrite (tokenRevoke_storage _ _ _ _ _ Hr). exact Hv.
  - unfold invalidate, reset. case_match; exact Hv.
  - exact Hv.
Qed.

Lemma roles_valid_step_witness :
  roles_valid (b_storage (snd (pathRolesWrite fresh_backend CreateOperation
                                 ttl_ok_role_fields))).
Proof.
  destruct (pathRolesWrite fresh_backend CreateOperation ttl_ok_role_fields) as [r b'] eqn:E.
  apply (@roles_valid_step okApi fresh_backend b' (StepRoleWrite fresh_backend _ _ r b' E)).
  unfold roles_valid. simpl. intros k e Hk. rewrite lookup_empty in Hk. discriminate.
Defined.

(** ** The cached client *)

Lemma getClient_ok_cached `{ProxmoxApi} (b b' : backend) (c : proxmoxClient) :
  getClient b = (Ok c, b') -> b_client b' = Some c /\ getClient b' = (Ok c, b').
Proof.
  unfold getClient. intros Hg.
  destruct (b_client b) as [c0|] eqn:Hb.
  - injection Hg as <- <-. rewrite Hb. split; reflexivity.
  - destruct (getConfig (b_storage b)); try discriminate.
    destruct (newClient _); try discriminate. injection Hg as <- <-. simpl.
    split; reflexivity.
Qed.

(** A successful [getClient] leaves the client cached: the next call
    returns the same client and changes nothing. *)
Theorem getClient_caches `{ProxmoxApi} (b b' : backend) (c : proxmoxClient) :
  getClient b = (Ok c, b') -> b_client b' = Some c /\ getClient b' = (Ok c, b').
Proof. exact (getClient_ok_cached b b' c). Qed.

Lemma getClient_caches_witness :
  exists c b', @getClient okApi configured_backend = (Ok c, b') /\
               b_client b' = Some c /\ @getClient okApi b' = (Ok c, b').
Proof.
  destruct (@getClient okApi configured_backend) as [r b'] eqn:E.
  destruct r as [c|e|e]; [| vm_compute in E; discriminate..].
  exists c, b'. split; [reflexivity|].
  exact (@getClient_caches okApi configured_backend b' c E).
Defined.

Lemma getClient_built `{ProxmoxApi} (b : backend) (c : proxmoxClient) :
  client_coherent b -> fst (getClient b) = Ok c -> newClient (Some (current_profile b)) = Ok c.
Proof.
  intros Hcoh Hg. destruct (b_client b) as [c0|] eqn:Hb.
  - unfold getClient in Hg. rewrite Hb in Hg. simpl in Hg. injection Hg as <-.
    exact (Hcoh c0 Hb).
  - destruct (getClient b) as [rc b''] eqn:Hgc. simpl in Hg. subst rc.
    exact (proj1 (getClient_empty_builds b c b'' Hb Hgc)).
Qed.

(** In every reachable backend, the client [getClient] hands out, cached
    or new, is configured from the current profile: its URL, headers, proxy
    and token secret are the profile's, its timeout is the profile's task
    timeout in whole seconds, and it carries a TLS configuration (one that
    skips certificate checks) only when [insecure_skip_tls_verify] is set. *)
Theorem getClient_client_fields `{ProxmoxApi} (b : backend) (c : proxmoxClient) :
  reachable b -> fst (getClient b) = Ok c ->
  let p := current_profile b in
  pc_api_url c = ApiURL p /\ pc_http_headers c = HTTPHeaders p /\
  pc_proxy_server c = ProxyServer p /\ pc_token_secret c = ApiTokenSecret p /\
  pc_timeout c = duration_int_seconds (TaskTimeout p) /\
  pc_tls c = (if SkipCertValidation p then Some true else None).
Proof.
  intros Hreach Hg p.
  pose proof (getClient_built b c (reachable_coherent b Hreach) Hg) as Hn.
  unfold newClient in Hn. fold p in Hn.
  destruct (String.eqb (ApiTokenID p) ""); [discriminate|].
  case_match; [discriminate|]. injection Hn as <-. simpl.
  repeat split. destruct (SkipCertValidation p); reflexivity.
Qed.

Lemma getClient_client_fields_witness :
  match fst (@getClient okApi configured_backend) with
  | Ok c =>
      pc_api_url c = ApiURL sample_config /\ pc_http_headers c = HTTPHeaders sample_config /\
      pc_proxy_server c = ProxyServer sample_config /\
      pc_token_secret c = ApiTokenSecret sample_config /\
      pc_timeout c = duration_int_seconds (TaskTimeout sample_config) /\
      pc_tls c = (if SkipCertValidation sample_config then Some true else None)
  | _ => False
  end.
Proof.
  destruct (fst (@getClient okApi configured_backend)) as [c|e|e] eqn:E;
    [| vm_compute in E; discriminate..].
  exact (@getClient_client_fields okApi configured_backend c
           (reachable_init _) E).
Defined.

(** ** Token creation, issuance, revocation and renewal *)

(** [createToken] refuses an empty user or realm before contacting the
    Proxmox API: it fails and makes no remote call. *)
Theorem createToken_empty_user_or_realm `{ProxmoxApi} (c : proxmoxClient) (user realm : string)
    (expire : Z) (privsep : bool) (uuid : list byte) :
  user = "" \/ realm = "" ->
  exists e, createToken c user realm expire privsep uuid = (Err e, []).
Proof.
  unfold createToken. intros [-> | ->].
  - eexists. reflexivity.
  - destruct (String.eqb user ""); eexists; reflexivity.
Qed.

Lemma createToken_empty_user_or_realm_witness :
  exists e, @createToken okApi sample_client "alice" "" 0 false sample_uuid
            = (Err e, []).
Proof. apply createToken_empty_user_or_realm. right. reflexivity. Defined.

(** A successful issuance makes exactly two remote calls: it looks up the
    role's user, then creates for that user the token named after the UUID,
    commented "Managed by Vault", without privilege separation, expiring at
    now + ttl (in Unix seconds) when the role has a positive ttl and never
    otherwise.  The lease is renewable and takes the role's ttl and max_ttl
    when positive, 0 otherwise; the secret answered is the one the API
    returned. *)
Theorem createUserCreds_calls_and_lease `{ProxmoxApi} (b : backend) (role : proxmoxRoleEntry)
    (now : Z) (uuid : list byte) (resp : response) (b' : backend) (calls : list px_call) :
  createUserCreds b role now uuid = (Ok (Some resp), b', calls) ->
  let t := {| TokenId := tokenId_of_uuid uuid; Comment := "Managed by Vault";
              Expire := if (0 <? TTL role)%Z then unix_after now (TTL role) else 0%Z;
              Privsep := false |} in
  calls = [PxGetUser (RUser role) (RRealm role); PxCreateApiToken (RUser role) (RRealm role) t] /\
  exists c s secret,
    fst (getClient b) = Ok c /\
    px_create_api_token c (RUser role) (RRealm role) t = Ok secret /\
    assoc_get "secret" (resp_data resp) = Some (VStr secret) /\
    resp_secret resp = Some s /\ sec_renewable s = true /\
    sec_ttl s = (if (0 <? TTL role)%Z then TTL role else 0%Z) /\
    sec_max_ttl s = (if (0 <? MaxTTL role)%Z then MaxTTL role else 0%Z).
Proof.
  intros Hc t. unfold createUserCreds, b_createToken, createToken in Hc.
  destruct (getClient b) as [rc b1] eqn:Hgc.
  destruct rc as [client|e|e]; [|discriminate..].
  destruct (String.eqb (RUser role) ""); [discriminate|].
  destruct (String.eqb (RRealm role) ""); [discriminate|].
  destruct (px_user_from_api client (RUser role) (RRealm role)); [discriminate|].
  match type of Hc with
  | context [px_create_api_token ?c ?u ?r ?t'] =>
      destruct (px_create_api_token c u r t') as [secret|e|e] eqn:Ht
  end; [|discriminate..].
  injection Hc as <- _ <-. split; [reflexivity|].
  exists client. eexists. exists secret. simpl. repeat split; assumption.
Qed.

Lemma createUserCreds_calls_and_lease_witness :
  match @createUserCreds okApi configured_backend sample_role 0 sample_uuid with
  | (Ok (Some resp), _, calls) =>
      let t := {| TokenId := tokenId_of_uuid sample_uuid; Comment := "Managed by Vault";
                  Expire := unix_after 0 (TTL sample_role); Privsep := false |} in
      calls = [PxGetUser "alice" "pve"; PxCreateApiToken "alice" "pve" t] /\
      exists c s secret,
        fst (@getClient okApi configured_backend) = Ok c /\
        @px_create_api_token okApi c "alice" "pve" t = Ok secret /\
        assoc_get "secret" (resp_data resp) = Some (VStr secret) /\
        resp_secret resp = Some s /\ sec_renewable s = true /\
        sec_ttl s = TTL sample_role /\ sec_max_ttl s = 0%Z
  | _ => False
  end.
Proof.
  destruct (@createUserCreds okApi configured_backend sample_role 0 sample_uuid)
    as [[r b'] calls] eqn:E.
  pose proof E as E'. vm_compute in E'. injection E' as <- <- <-.
  exact (@createUserCreds_calls_and_lease okApi configured_backend sample_role 0 sample_uuid
           _ _ _ E).
Defined.

Lemma createToken_calls `{ProxmoxApi} (c : proxmoxClient) (user realm : string) (expire : Z)
    (privsep : bool) (uuid : list byte) (r : outcome proxmoxToken) (calls : list px_call) :
  createToken c user realm expire privsep uuid = (r, calls) ->
  calls = [] \/
  (user <> "" /\ realm <> "" /\
   (calls = [PxGetUser user realm] \/
    calls = [PxGetUser user realm;
             PxCreateApiToken user realm {| TokenId := tokenId_of_uuid uuid;
                                            Comment := "Managed by Vault";
                                            Expire := expire; Privsep := privsep |}])).
Proof.
  unfold createToken. intros Hc.
  destruct (String.eqb user "") eqn:Hu; [injection Hc as _ <-; left; reflexivity|].
  destruct (String.eqb realm "") eqn:Hr; [injection Hc as _ <-; left; reflexivity|].
  apply String.eqb_neq in Hu, Hr. right. split; [exact Hu|]. split; [exact Hr|].
  destruct (px_user_from_api c user realm); [injection Hc as _ <-; left; reflexivity|].
  right. repeat case_match; injection Hc as _ <-; reflexivity.
Qed.

Lemma b_createToken_calls `{ProxmoxApi} (b : backend) (role : proxmoxRoleEntry) (now : Z)
    (uuid : list byte) (r : outcome proxmoxToken) (b' : backend) (calls : list px_call) :
  b_createToken b role now uuid = (r, b', calls) ->
  calls = [] \/
  exists c r', createToken c (RUser role) (RRealm role)
                 (if (0 <? TTL role)%Z then unix_after now (TTL role) else 0%Z) false uuid
               = (r', calls).
Proof.
  unfold b_createToken. intros Hb.
  destruct (getClient b) as [rc b1]. destruct rc as [c|e|e];
    [| injection Hb as _ _ <-; left; reflexivity..].
  right. exists c.
  destruct (createToken c _ _ _ _ _) as [r' cs] eqn:Hct. exists r'.
  destruct r'; injection Hb as _ _ <-; reflexivity.
Qed.

Lemma createUserCreds_calls_of `{ProxmoxApi} (b : backend) (role : proxmoxRoleEntry) (now : Z)
    (uuid : list byte) (r : outcome (option response)) (b' : backend) (calls : list px_call) :
  createUserCreds b role now uuid = (r, b', calls) ->
  exists r0 b0, b_createToken b role now uuid = (r0, b0, calls).
Proof.
  unfold createUserCreds. intros Hc.
  destruct (b_createToken b role now uuid) as [[r0 b0] cs] eqn:E.
  exists r0, b0. destruct r0; injection Hc as _ _ <-; reflexivity.
Qed.

(** Every token [pathCredentialsRead] asks the Proxmox API to create is for
    the user and realm of the role stored under the requested name, both
    non-empty, and is named after the UUID; an unknown role creates
    nothing. *)
Theorem pathCredentialsRead_creates_for_role `{ProxmoxApi} (b b' : backend) (name : string)
    (now : Z) (uuid : list byte) (r : outcome (option response)) (calls : list px_call)
    (u rl : string) (t : ApiToken) :
  pathCredentialsRead b name now uuid = (r, b', calls) ->
  In (PxCreateApiToken u rl t) calls ->
  exists e, s_roles (b_storage b) !! role_key name = Some e /\
    u = RUser e /\ rl = RRealm e /\ u <> "" /\ rl <> "" /\
    TokenId t = tokenId_of_uuid uuid /\ Privsep t = false.
Proof.
  unfold pathCredentialsRead. intros Hc Hin.
  destruct (getRole (b_storage b) name) as [[e|]|x|x] eqn:Hg;
    try (injection Hc as _ _ <-; destruct Hin).
  unfold getRole in Hg. destruct (String.eqb name ""); [discriminate|].
  destruct (s_fault (b_storage b) OpGet (role_key name)); [discriminate|].
  injection Hg as Hg. exists e. split; [exact Hg|].
  destruct (createUserCreds_calls_of _ _ _ _ _ _ _ Hc) as [r0 [b0 Hb]].
  destruct (b_createToken_calls _ _ _ _ _ _ _ Hb) as [-> | [c [r' Hct]]]; [destruct Hin|].
  destruct (createToken_calls _ _ _ _ _ _ _ _ Hct)
    as [-> | [Hu [Hr [-> | ->]]]]; [destruct Hin | |].
  - destruct Hin as [Hin | []]. discriminate.
  - destruct Hin as [Hin | [Hin | []]]; [discriminate|]. injection Hin as <- <- <-.
    repeat split; assumption.
Qed.

Lemma pathCredentialsRead_creates_for_role_witness :
  exists t,
    In (PxCreateApiToken "alice" "pve" t)
       (@pathCredentialsRead okApi configured_backend "alice" 0 sample_uuid).2 /\
    exists e, s_roles (b_storage configured_backend) !! role_key "alice" = Some e /\
      "alice" = RUser e /\ "pve" = RRealm e /\ "alice" <> "" /\ "pve" <> "" /\
      TokenId t = tokenId_of_uuid sample_uuid /\ Privsep t = false.
Proof.
  destruct (@pathCredentialsRead okApi configured_backend "alice" 0 sample_uuid)
    as [[r b'] calls] eqn:E. cbn [snd].
  pose proof E as E'. vm_compute in E'. injection E' as _ _ Hc. subst calls.
  eexists. split; [right; left; reflexivity|].
  apply (@pathCredentialsRead_creates_for_role okApi configured_backend b' "alice" 0
           sample_uuid r _ "alice" "pve" _ E).
  right. left. reflexivity.
Defined.

(** A successful revocation resolved the lease's role in the storage and
    made exactly two remote calls: it looked up the role's user, then
    deleted that user's token named by the lease's [token_id], or the token
    named "" when the lease carries no [token_id]. *)
Theorem tokenRevoke_success_calls `{ProxmoxApi} (b b' : backend)
    (internal : list (string * value)) (calls : list px_call) :
  tokenRevoke b internal = (Ok None, b', calls) ->
  exists role e,
    assoc_get "role" internal = Some (VStr role) /\
    s_roles (b_storage b) !! role_key role = Some e /\
    calls = [PxGetUser (RUser e) (RRealm e);
             PxDeleteApiToken (RUser e) (RRealm e)
               {| TokenId := match assoc_get "token_id" internal with
                             | Some (VStr t) => t | _ => "" end;
                  Comment := ""; Expire := 0; Privsep := false |}].
Proof.
  unfold tokenRevoke. intros Hr.
  pose proof (getClient_storage b) as Hs.
  destruct (getClient b) as [rc b1]. simpl in Hs.
  destruct rc as [client|x|x]; [|discriminate..].
  destruct (assoc_get "token_id" internal) as [[t| | |]|] eqn:Ht; try discriminate;
    (destruct (assoc_get "role" internal) as [[role| | |]|]; try discriminate;
     rewrite Hs in Hr;
     destruct (getRole (b_storage b) role) as [[e|]|x|x] eqn:Hg; try discriminate;
     unfold getRole in Hg; destruct (String.eqb role ""); [discriminate|];
     destruct (s_fault (b_storage b) OpGet (role_key role)); [discriminate|];
     injection Hg as Hg;
     unfold deleteToken in Hr;
     destruct (px_user_from_api client (RUser e) (RRealm e)); [discriminate|];
     case_match; [discriminate|]; injection Hr as _ <-;
     exists role, e; repeat split; assumption).
Qed.

Lemma tokenRevoke_success_calls_witness :
  exists role e,
    assoc_get "role" [("token_id", VStr "x"); ("role", VStr "alice")] = Some (VStr role) /\
    s_roles (b_storage configured_backend) !! role_key role = Some e /\
    (@tokenRevoke okApi configured_backend [("token_id", VStr "x"); ("role", VStr "alice")]).2 =
      [PxGetUser (RUser e) (RRealm e);
       PxDeleteApiToken (RUser e) (RRealm e)
         {| TokenId := "x"; Comment := ""; Expire := 0; Privsep := false |}].
Proof.
  destruct (@tokenRevoke okApi configured_backend [("token_id", VStr "x"); ("role", VStr "alice")])
    as [[r b'] calls] eqn:E. cbn [snd].
  pose proof E as E'. vm_compute in E'. injection E' as <- _ _.
  exact (@tokenRevoke_success_calls okApi configured_backend b' _ calls E).
Defined.

(** A lease whose [role] entry is not a string makes the revocation panic
    (the unchecked type assertion [roleRaw.(string)]) once the client is
    built and the [token_id] entry, if any, is a string; nothing is
    deleted. *)
Theorem tokenRevoke_nonstring_role_panics `{ProxmoxApi} (b : backend)
    (internal : list (string * value)) (c : proxmoxClient) (v : value) :
  fst (getClient b) = Ok c ->
  (assoc_get "token_id" internal = None \/ exists t, assoc_get "token_id" internal = Some (VStr t)) ->
  assoc_get "role" internal = Some v -> (forall s, v <> VStr s) ->
  let '(res, b', calls) := tokenRevoke b internal in
  res = Panic "interface conversion: interface {} is not string" /\
  b' = snd (getClient b) /\ calls = [].
Proof.
  intros Hg Ht Hr Hv. unfold tokenRevoke.
  destruct (getClient b) as [rc b1]. simpl in Hg. subst rc. simpl.
  assert (Hrole : match v with VStr _ => False | _ => True end)
    by (destruct v; [exact (Hv _ eq_refl) | exact I..]).
  destruct Ht as [Ht | [t Ht]]; rewrite Ht, Hr;
    destruct v; try contradiction; repeat split.
Qed.

Lemma tokenRevoke_nonstring_role_panics_witness :
  let '(res, b', calls) := @tokenRevoke okApi configured_backend [("role", VBool true)] in
  res = Panic "interface conversion: interface {} is not string" /\
  b' = snd (@getClient okApi configured_backend) /\ calls = [].
Proof.
  destruct (fst (@getClient okApi configured_backend)) as [c|e|e] eqn:E;
    [| vm_compute in E; discriminate..].
  apply (@tokenRevoke_nonstring_role_panics okApi configured_backend _ c (VBool true) E).
  - left. reflexivity.
  - reflexivity.
  - intros s Hs. discriminate.
Defined.

Lemma createUserCreds_ok_parts `{ProxmoxApi} (b : backend) (role : proxmoxRoleEntry) (now : Z)
    (uuid : list byte) (resp : response) (b1 : backend) (calls : list px_call) :
  createUserCreds b role now uuid = (Ok (Some resp), b1, calls) ->
  exists c s, getClient b = (Ok c, b1) /\ resp_secret resp = Some s /\
    sec_internal s = [("token_id", VStr (tokenId_of_uuid uuid)); ("role", VStr (Name role));
                      ("secret_type", VStr proxmoxTokenType)].
Proof.
  intros Hc. unfold createUserCreds, b_createToken, createToken in Hc.
  destruct (getClient b) as [rc b0] eqn:Hgc.
  destruct rc as [client|e|e]; [|discriminate..].
  destruct (String.eqb (RUser role) ""); [discriminate|].
  destruct (String.eqb (RRealm role) ""); [discriminate|].
  destruct (px_user_from_api client (RUser role) (RRealm role)); [discriminate|].
  match type of Hc with
  | context [px_create_api_token ?c ?u ?r ?t'] =>
      destruct (px_create_api_token c u r t') as [secret|e|e]
  end; [|discriminate..].
  injection Hc as <- <- _. exists client. eexists. split; [reflexivity|].
  split; reflexivity.
Qed.

(** Revoking a lease just issued, its role still stored as it was, deletes
    exactly the issued token: the token named after the UUID, of the role's
    user and realm; the backend is left as the issuance left it. *)
Theorem issue_then_revoke `{ProxmoxApi} (b b1 : backend) (role : proxmoxRoleEntry) (now : Z)
    (uuid : list byte) (resp : response) (calls : list px_call) (s : lease_secret) :
  createUserCreds b role now uuid = (Ok (Some resp), b1, calls) ->
  resp_secret resp = Some s ->
  Name role <> "" ->
  s_fault (b_storage b1) OpGet (role_key (Name role)) = None ->
  s_roles (b_storage b1) !! role_key (Name role) = Some role ->
  let '(res, b2, calls2) := tokenRevoke b1 (sec_internal s) in
  b2 = b1 /\
  (calls2 = [PxGetUser (RUser role) (RRealm role)] \/
   calls2 = [PxGetUser (RUser role) (RRealm role);
             PxDeleteApiToken (RUser role) (RRealm role)
               {| TokenId := tokenId_of_uuid uuid; Comment := ""; Expire := 0;
                  Privsep := false |}]).
Proof.
  intros Hc Hs Hn Hf Hl.
  destruct (createUserCreds_ok_parts _ _ _ _ _ _ _ Hc) as [c [s' [Hg [Hs' Hi]]]].
  rewrite Hs in Hs'. injection Hs' as <-.
  destruct (getClient_ok_cached _ _ _ Hg) as [_ Hg1].
  assert (Ht : assoc_get "token_id" (sec_internal s) = Some (VStr (tokenId_of_uuid uuid)))
    by (rewrite Hi; reflexivity).
  assert (Hr : assoc_get "role" (sec_internal s) = Some (VStr (Name role)))
    by (rewrite Hi; reflexivity).
  assert (Hgr : getRole (b_storage b1) (Name role) = Ok (Some role)).
  { unfold getRole. apply String.eqb_neq in Hn. rewrite Hn, Hf, Hl. reflexivity. }
  unfold tokenRevoke. rewrite Hg1, Ht, Hr, Hgr. unfold deleteToken.
  destruct (px_user_from_api c (RUser role) (RRealm role)).
  - split; [reflexivity | left; reflexivity].
  - match goal with
    | |- context [px_delete_api_token ?c ?u ?r ?t] => destruct (px_delete_api_token c u r t)
    end; (split; [reflexivity | right; reflexivity]).
Qed.

Lemma issue_then_revoke_witness :
  exists resp b1 calls s,
    @createUserCreds okApi configured_backend sample_role 0 sample_uuid
      = (Ok (Some resp), b1, calls) /\
    resp_secret resp = Some s /\
    let '(res, b2, calls2) := @tokenRevoke okApi b1 (sec_internal s) in
    b2 = b1 /\
    (calls2 = [PxGetUser "alice" "pve"] \/
     calls2 = [PxGetUser "alice" "pve";
               PxDeleteApiToken "alice" "pve"
                 {| TokenId := tokenId_of_uuid sample_uuid; Comment := "";
                    Expire := 0; Privsep := false |}]).
Proof.
  destruct (@createUserCreds okApi configured_backend sample_role 0 sample_uuid)
    as [[r b1] calls] eqn:E.
  pose proof E as E'. vm_compute in E'. injection E' as Hr Hb _. subst r.
  eexists _, b1, calls, _. split; [reflexivity|]. split; [reflexivity|].
  apply (@issue_then_revoke okApi configured_backend b1 sample_role 0 sample_uuid _ _ _ E);
    [reflexivity | discriminate | rewrite <- Hb; reflexivity | rewrite <- Hb; reflexivity].
Defined.

(** A successful renewal answers the lease itself, with no data: its
    internal data and renewability are unchanged, and its ttl and max_ttl
    become those of the role now stored under the lease's [role] entry
    when they are positive, and stay the lease's own otherwise. *)
Theorem tokenRenew_success (b : backend) (sec : lease_secret) (resp : response) :
  tokenRenew b sec = Ok (Some resp) ->
  exists role e,
    assoc_get "role" (sec_internal sec) = Some (VStr role) /\
    s_roles (b_storage b) !! role_key role = Some e /\
    resp_data resp = [] /\
    resp_secret resp =
      Some {| sec_ttl := if (0 <? TTL e)%Z then TTL e else sec_ttl sec;
              sec_max_ttl := if (0 <? MaxTTL e)%Z then MaxTTL e else sec_max_ttl sec;
              sec_renewable := sec_renewable sec;
              sec_internal := sec_internal sec |}.
Proof.
  unfold tokenRenew. intros Hr.
  destruct (assoc_get "role" (sec_internal sec)) as [[role| | |]|]; try discriminate.
  destruct (getRole (b_storage b) role) as [[e|]|x|x] eqn:Hg; try discriminate.
  unfold getRole in Hg. destruct (String.eqb role ""); [discriminate|].
  destruct (s_fault (b_storage b) OpGet (role_key role)); [discriminate|].
  injection Hg as Hg. injection Hr as <-.
  exists role, e. repeat split; assumption.
Qed.

(** A lease issued with ttl 60 s, renewed against [alice] (ttl 300 s,
    max_ttl unset). *)
Lemma tokenRenew_success_witness :
  exists role e,
    assoc_get "role" [("token_id", VStr "x"); ("role", VStr "alice")] = Some (VStr role) /\
    s_roles (b_storage configured_backend) !! role_key role = Some e /\
    resp_data (renewed_lease_response) = [] /\
    resp_secret renewed_lease_response =
      Some {| sec_ttl := if (0 <? TTL e)%Z then TTL e else duration_of_seconds 60;
              sec_max_ttl := if (0 <? MaxTTL e)%Z then MaxTTL e else duration_of_seconds 60;
              sec_renewable := true;
              sec_internal := [("token_id", VStr "x"); ("role", VStr "alice")] |}.
Proof.
  destruct (tokenRenew configured_backend issued_lease) as [[resp|]|x|x] eqn:E;
    [| vm_compute in E; discriminate..].
  assert (Hresp : resp = renewed_lease_response)
    by (vm_compute in E; injection E as <-; reflexivity).
  subst resp.
  exact (tokenRenew_success configured_backend issued_lease renewed_lease_response E).
Defined.

(** A renewal fails with an error when the lease carries no [role] entry
    or its role is not stored (or cannot be read). *)
Theorem tokenRenew_unresolved_role (b : backend) (sec : lease_secret) :
  (assoc_get "role" (sec_internal sec) = None \/
   exists role, assoc_get "role" (sec_internal sec) = Some (VStr role) /\
                forall r, getRole (b_storage b) role <> Ok (Some r)) ->
  exists e, tokenRenew b sec = Err e.
Proof.
  unfold tokenRenew. intros [Hn | [role [Hr Hg]]].
  - rewrite Hn. eexists. reflexivity.
  - rewrite Hr. destruct (getRole (b_storage b) role) as [[e|]|x|x] eqn:E.
    + exfalso. exact (Hg e eq_refl).
    + eexists. reflexivity.
    + eexists. reflexivity.
    + exfalso. exact (getRole_no_panic _ _ _ E).
Qed.

Lemma tokenRenew_unresolved_role_witness :
  exists e, tokenRenew configured_backend
              {| sec_ttl := 0; sec_max_ttl := 0; sec_renewable := true;
                 sec_internal := [("role", VStr "bob")] |} = Err e.
Proof.
  apply tokenRenew_unresolved_role. right. exists "bob". split; [reflexivity|].
  intros r. vm_compute. discriminate.
Defined.
